(** * testcontainer: a lifecycle wrapper around single Docker containers

    A shallow embedding of [docker.go] (package [testcontainer]) and the
    properties of its container handle and of [RunContainer].

    The file is organised as follows:
    - [GoLib]: the pieces of the Go standard library and of the
      go-connections [nat] package that the code calls on plain strings;
    - the engine data read and written by the package;
    - [Docker]: the interface of the stateful collaborators (docker client,
      pull stream, port-spec parser) and the calls made to them;
    - the embedding of every function of [docker.go];
    - what the properties speak of, the command line in the words of the
      spec, and [inspectContainer] cut at its accesses to shared memory;
    - [Sim]: a scripted engine used to run the code on concrete inputs;
    - the lemmas and theorems: the handle, its cache, [RunContainer],
      mapped ports, and accessor calls with and without overlap;
    - the three accessors one by one and in sequence, what
      [GetMappedPort] can answer, [RunContainer] followed by an accessor
      or by [Terminate], and overlapping calls in any schedule. *)

From Stdlib Require Import ZArith Ascii String List Lia.
From stdpp Require Import base option list gmap strings fin_maps pretty.

Local Open Scope string_scope.
Local Open Scope Z_scope.
Local Open Scope list_scope.

(* ===================================================================== *)
(** ** Go library functions on strings *)
(* ===================================================================== *)

Module GoLib.

(** [strings.Split(s, sep)] for a separator of one byte, the only way the
    package (and [nat.SplitProtoPort]) calls it: the substrings between
    the occurrences of [sep]; [n] occurrences give [n + 1] substrings,
    empty ones included. *)
Fixpoint Split (s : string) (sep : ascii) : list string :=
  match s with
  | EmptyString => [EmptyString]
  | String c s' =>
      if Ascii.eqb c sep then EmptyString :: Split s' sep
      else match Split s' sep with
           | t :: ts => String c t :: ts
           | [] => [String c EmptyString]
           end
  end.

Definition is_digit (c : ascii) : bool :=
  (48 <=? Z.of_nat (nat_of_ascii c)) && (Z.of_nat (nat_of_ascii c) <=? 57).

Definition digit_val (c : ascii) : Z := Z.of_nat (nat_of_ascii c) - 48.

(** The value of a string of decimal digits, [None] when there is another
    byte in it.  The accumulator is unbounded: callers clamp. *)
Fixpoint digits_val (acc : Z) (s : string) : option Z :=
  match s with
  | EmptyString => Some acc
  | String c s' =>
      if is_digit c then digits_val (10 * acc + digit_val c) s' else None
  end.

(** The two causes a [*strconv.NumError] wraps. *)
Inductive NumErrCause := ErrSyntax | ErrRange.

Definition maxInt : Z := 2 ^ 63 - 1.
Definition minInt : Z := - 2 ^ 63.

(** [strconv.Atoi] on a 64-bit platform, as value and cause of failure:
    an optional sign followed by at least one decimal digit; a syntax
    error gives 0, a range error the nearest representable value. *)
Definition Atoi_raw (s : string) : Z * option NumErrCause :=
  match s with
  | EmptyString => (0, Some ErrSyntax)
  | String c rest =>
      let neg := Ascii.eqb c "-" in
      let body := if Ascii.eqb c "-" || Ascii.eqb c "+" then rest else s in
      match body with
      | EmptyString => (0, Some ErrSyntax)
      | _ =>
          match digits_val 0 body with
          | None => (0, Some ErrSyntax)
          | Some n =>
              let v := if neg then - n else n in
              if maxInt <? v then (maxInt, Some ErrRange)
              else if v <? minInt then (minInt, Some ErrRange)
              else (v, None)
          end
      end
  end.

(** Modelled from the spec: [nat.Port] and its methods belong to the
    go-connections library, which is not under src/.  A port key is the
    string "containerPort[/protocol]"; [SplitProtoPort] cuts it at the
    slashes and defaults the protocol to tcp. *)
Definition SplitProtoPort (rawPort : string) : string * string :=
  match Split rawPort "/" with
  | [] => ("", "")
  | p0 :: ps =>
      if String.eqb rawPort "" || String.eqb p0 "" then ("", "")
      else match ps with
           | [] => ("tcp", rawPort)
           | p1 :: _ => if String.eqb p1 "" then ("tcp", p0) else (p1, p0)
           end
  end.

(** Modelled from the spec: [nat.ParsePort], the numeric value of a port
    string as an unsigned 16-bit decimal; 0 for the empty string and for
    anything that is not such a number. *)
Definition ParsePort (rawPort : string) : Z :=
  match rawPort with
  | EmptyString => 0
  | _ => match digits_val 0 rawPort with
         | Some n => if n <=? 65535 then n else 0
         | None => 0
         end
  end.

(** Modelled from the spec: [nat.Port.Int], "the numeric port value
    (protocol suffix ignored)". *)
Definition Port_Int (p : string) : Z := ParsePort (snd (SplitProtoPort p)).

(** The verb [%d] of [fmt]: a decimal numeral, with a minus sign for a
    negative number. *)
Definition fmt_d (n : Z) : string := pretty n.

End GoLib.

(* ===================================================================== *)
(** ** Data of the engine API read and written by the package *)
(* ===================================================================== *)

(** [nat.Port] is a string type ("80/tcp"); [nat.PortSet] is
    [map[Port]struct{}] and [nat.PortMap] is [map[Port][]PortBinding]. *)
Record PortBinding := { HostIP : string; HostPort : string }.

(** The types of the engine API, under the names of their Go packages. *)
Module container.

(** The fields of [container.Config] that [RunContainer] fills in.  A nil
    slice and an empty one are both []: [Cmd = []] is "no command set". *)
Record Config := {
  Image : string;
  Env : list string;
  ExposedPorts : gset string;
  Cmd : list string
}.

Record HostConfig := { PortBindings : gmap string (list PortBinding) }.

End container.

Module types.

Record ImagePullOptions := { RegistryAuth : string }.

Record NetworkSettings := {
  IPAddress : string;
  Ports : gmap string (list PortBinding)
}.

End types.

(** The fields of [types.ContainerJSON] the accessors read: what
    [inspect.Config] and [inspect.NetworkSettings] point to. *)
Record ContainerJSON := {
  Config : container.Config;
  NetworkSettings : types.NetworkSettings
}.

(** An error value handed over by the docker client or the pull stream:
    a connection failure or an engine-operation failure. *)
Record DockerError := { docker_msg : string }.

(** Go's [error] values as the package meets them.  The package builds one
    error itself, with [fmt.Errorf] (an [*errors.errorString]); it passes on
    those of [strconv] and those of its collaborators. *)
Inductive error :=
| errorString (s : string)
| NumError (Func Num : string) (Err : GoLib.NumErrCause)
| FromDocker (e : DockerError).

(** [strconv.Atoi] with its error value. *)
Definition Atoi (s : string) : Z * option error :=
  let '(n, cause) := GoLib.Atoi_raw s in
  (n, NumError "Atoi" s <$> cause).

(** A run-time panic, and what a call of a Go function comes to. *)
Inductive Panic := IndexOutOfRange (index : Z) (len : nat).

Inductive Outcome (A : Type) :=
| Returned (a : A)
| Panicked (p : Panic).
Arguments Returned {A} a.
Arguments Panicked {A} p.

(** [Container]: the identifier and the cache slot ([raw], nil at first).
    The methods have pointer receivers: the embedding of each takes the
    struct and gives back the struct as the call leaves it. *)
Record Container := { ID : string; raw : option ContainerJSON }.

(** ** The order of a [range] over a map

    Go does not specify the order in which [range] visits a map, and the
    order may differ from one [range] statement to the next over the same
    map.  An execution of a [range] statement is given the order it takes:
    some arrangement of the entries of the map. *)
Record RangeOrder := {
  visit : ∀ V : Type, gmap string V → list (string * V);
  visit_perm : ∀ V (m : gmap string V), visit V m ≡ₚ map_to_list m
}.
Arguments visit _ {V} _.

Definition listed : RangeOrder :=
  {| visit := λ V m, map_to_list m;
     visit_perm := λ V m, reflexivity (map_to_list m) |}.

Definition reversed : RangeOrder :=
  {| visit := λ V m, reverse (map_to_list m);
     visit_perm := λ V m, reverse_Permutation (map_to_list m) |}.

(* ===================================================================== *)
(** ** The collaborators *)
(* ===================================================================== *)

(** Every call the package makes to the world outside it, with what the
    call was given and what it answered. *)
Inductive Event :=
| EvNewEnvClient (err : option DockerError)
| EvParsePortSpecs (specs : list string) (err : option error)
| EvLogPortBindings (portBindings : gmap string (list PortBinding))
| EvLogPort (port : Z) (hostPort : string)
| EvImagePull (image : string) (options : types.ImagePullOptions) (err : option DockerError)
| EvReadAll (err : option DockerError)
| EvClose
| EvContainerCreate (config : container.Config) (hostConfig : container.HostConfig) (res : string + DockerError)
| EvContainerStart (id : string) (err : option DockerError)
| EvWaitUntilReady (id : string) (err : option error)
| EvContainerInspect (id : string) (res : ContainerJSON + DockerError)
| EvContainerRemove (id : string) (force : bool) (err : option DockerError)
| EvTestError (err : error).

(** The docker client, the pull stream and the port-spec parser, over the
    state [W] of everything outside the process (the daemon, the process
    environment).  A call that can fail answers a value or an error. *)
Class Docker (W : Type) := {
  NewEnvClient : W → option DockerError * W;
  ParsePortSpecs :
    list string → (gset string * gmap string (list PortBinding)) + error;
  ImagePull : string → types.ImagePullOptions → W → option DockerError * W;
  ReadAll : W → option DockerError * W;
  Close : W → W;
  ContainerCreate : container.Config → container.HostConfig → W → (string + DockerError) * W;
  ContainerStart : string → W → option DockerError * W;
  ContainerInspect : string → W → (ContainerJSON + DockerError) * W;
  ContainerRemove : string → bool → W → option DockerError * W
}.

(** [wait.WaitStrategy]: the one method of the interface.  It is given the
    handle (a pointer) and may call its accessors, so it gives back the
    handle as it leaves it. *)
Record WaitStrategy (W : Type) := {
  WaitUntilReady : Container → W → (option error * Container) * W
}.
Arguments WaitUntilReady {W} _ _ _.

(** [RequestContainer], the input of [RunContainer]. *)
Record RequestContainer (W : Type) := {
  Env : gmap string string;
  ExportedPort : list string;
  Cmd : string;
  RegistryCred : string;
  WaitingFor : option (WaitStrategy W)
}.
Arguments Env {W} _.
Arguments ExportedPort {W} _.
Arguments Cmd {W} _.
Arguments RegistryCred {W} _.
Arguments WaitingFor {W} _.

(** ** Computations that call the collaborators

    A computation takes the state of the world and gives its result, the
    state it leaves and the calls it made, in order. *)
Definition IO (W A : Type) : Type := W → A * W * list Event.

Definition ret {W A} (a : A) : IO W A := λ w, (a, w, []).

Definition bind {W A B} (m : IO W A) (k : A → IO W B) : IO W B :=
  λ w, let '(a, w1, t1) := m w in
       let '(b, w2, t2) := k a w1 in
       (b, w2, t1 ++ t2).

Definition emit {W} (ev : Event) : IO W unit := λ w, (tt, w, [ev]).

(** A collaborator's call, recorded with its answer. *)
Definition call {W A} (op : W → A * W) (ev : A → Event) : IO W A :=
  λ w, let '(a, w') := op w in (a, w', [ev a]).

Declare Scope io_scope.
Delimit Scope io_scope with io.
Notation "'do' x <- m 'in' k" := (bind m (λ x, k))
  (at level 10, x name, m at level 100, k at level 200) : io_scope.
Local Open Scope io_scope.

Definition err_of {A E} (r : A + E) : option E :=
  match r with inl _ => None | inr e => Some e end.

(* ===================================================================== *)
(** ** docker.go *)
(* ===================================================================== *)

Section Testcontainer.
Context {W : Type} `{Docker W}.

(** [inspectContainer(ctx, c)]: the cached snapshot when there is one;
    otherwise a client, an inspection, and the cache slot is written
    only with a successful inspection.  The result is Go's pair: a
    pointer to the snapshot (nil is [None]) and an [error]. *)
Definition inspectContainer (c : Container)
  : IO W ((option ContainerJSON * option error) * Container) :=
  match raw c with
  | Some snapshot => ret ((Some snapshot, None), c)
  | None =>
      do cli <- call NewEnvClient EvNewEnvClient in
      match cli with
      | Some err => ret ((None, Some (FromDocker err)), c)
      | None =>
          do inspect <- call (ContainerInspect (ID c))
                             (EvContainerInspect (ID c)) in
          match inspect with
          | inr err => ret ((None, Some (FromDocker err)), c)
          | inl snapshot =>
              let c' := {| ID := ID c; raw := Some snapshot |} in
              ret ((raw c', None), c')
          end
      end
  end.

(** [Container.LivenessCheckPorts]. *)
Definition LivenessCheckPorts (c : Container)
  : IO W ((option (gset string) * option error) * Container) :=
  do r <- inspectContainer c in
  match r with
  | ((Some inspect, None), c') =>
      ret ((Some (container.ExposedPorts (Config inspect)), None), c')
  | ((_, err), c') => ret ((None, err), c')
  end.

(** [Container.Terminate]. *)
Definition Terminate (c : Container) : IO W (option error) :=
  do cli <- call NewEnvClient EvNewEnvClient in
  match cli with
  | Some err =>
      do _ <- emit (EvTestError (FromDocker err)) in
      ret (Some (FromDocker err))
  | None =>
      do r <- call (ContainerRemove (ID c) true)
                   (EvContainerRemove (ID c) true) in
      ret (FromDocker <$> r)
  end.

(** [Container.GetIPAddress]. *)
Definition GetIPAddress (c : Container)
  : IO W ((string * option error) * Container) :=
  do r <- inspectContainer c in
  match r with
  | ((Some inspect, None), c') =>
      ret ((types.IPAddress (NetworkSettings inspect), None), c')
  | ((_, err), c') => ret (("", err), c')
  end.

(** The error [GetMappedPort] builds when its loop ends without a
    match: [fmt.Errorf("Unable to find mapped port: %d", port)]. *)
Definition port_not_found (port : Z) : error :=
  errorString ("Unable to find mapped port: " +:+ GoLib.fmt_d port).

(** The [for key, val := range ...Ports] loop of [GetMappedPort] over
    the entries in the order this execution visits them: [None] when the
    loop runs to its end, otherwise what the [return] inside it gives.
    [val[0]] is evaluated (for the log line) without a length check. *)
Fixpoint GetMappedPort_range (entries : list (string * list PortBinding))
    (port : Z) : IO W (option (Outcome (Z * option error))) :=
  match entries with
  | [] => ret None
  | (key, val) :: rest =>
      if GoLib.Port_Int key =? port then
        match val with
        | [] => ret (Some (Panicked (IndexOutOfRange 0 0)))
        | val0 :: _ =>
            do _ <- emit (EvLogPort port (HostPort val0)) in
            ret (Some (Returned (Atoi (HostPort val0))))
        end
      else GetMappedPort_range rest port
  end.

(** [Container.GetMappedPort(ctx, port)]. *)
Definition GetMappedPort (order : RangeOrder) (c : Container) (port : Z)
  : IO W (Outcome (Z * option error) * Container) :=
  let binding := 0 in
  do r <- inspectContainer c in
  match r with
  | ((Some inspect, None), c') =>
      do found <- GetMappedPort_range
                    (visit order (types.Ports (NetworkSettings inspect))) port in
      match found with
      | Some out => ret (out, c')
      | None => ret (Returned (binding, Some (port_not_found port)), c')
      end
  | ((_, err), c') => ret (Returned (binding, err), c')
  end.

(** The [container.Config] that [RunContainer] assembles (lines 110 to
    123): the environment flattened in the order of the [range] over
    the map, and the command only when the string is not empty. *)
Definition dockerInput (order : RangeOrder) (containerImage : string)
    (input : RequestContainer W) (exposedPorts : gset string) : container.Config :=
  let env := (λ kv : string * string, fst kv +:+ "=" +:+ snd kv)
               <$> visit order (Env input) in
  {| container.Image := containerImage;
     container.Env := env;
     container.ExposedPorts := exposedPorts;
     container.Cmd := if String.eqb (Cmd input) "" then []
                      else GoLib.Split (Cmd input) " " |}.

(** The options of the pull (lines 125 to 128): the registry credential
    when the request has one. *)
Definition pullOpt (input : RequestContainer W) : types.ImagePullOptions :=
  {| types.RegistryAuth := if String.eqb (RegistryCred input) "" then ""
                           else RegistryCred input |}.

(** Lines 141 to 163 of [RunContainer]: what runs once the pull stream
    has been read to its end. *)
Definition create_and_start (config : container.Config)
    (portBindings : gmap string (list PortBinding))
    (input : RequestContainer W) : IO W (option Container * option error) :=
  let hostConfig := {| container.PortBindings := portBindings |} in
  do resp <- call (ContainerCreate config hostConfig)
                  (EvContainerCreate config hostConfig) in
  match resp with
  | inr err => ret (None, Some (FromDocker err))
  | inl respID =>
      do started <- call (ContainerStart respID) (EvContainerStart respID) in
      match started with
      | Some err => ret (None, Some (FromDocker err))
      | None =>
          let containerInstance := {| ID := respID; raw := None |} in
          match WaitingFor input with
          | Some strategy =>
              do waited <- call (WaitUntilReady strategy containerInstance)
                                (λ r, EvWaitUntilReady respID (fst r)) in
              match waited with
              | (Some err, containerInstance') =>
                  ret (Some containerInstance', Some err)
              | (None, containerInstance') =>
                  ret (Some containerInstance', None)
              end
          | None => ret (Some containerInstance, None)
          end
      end
  end.

(** [RunContainer(ctx, containerImage, input)].  [defer pull.Close()]
    runs when the function returns, on every path after a successful
    [ImagePull]. *)
Definition RunContainer (order : RangeOrder) (containerImage : string)
    (input : RequestContainer W) : IO W (option Container * option error) :=
  do cli <- call NewEnvClient EvNewEnvClient in
  match cli with
  | Some err => ret (None, Some (FromDocker err))
  | None =>
      do parsed <- (λ w, let r := ParsePortSpecs (ExportedPort input) in
                         (r, w, [EvParsePortSpecs (ExportedPort input) (err_of r)])) in
      match parsed with
      | inr err => ret (None, Some err)
      | inl (exposedPorts, portBindings) =>
          do _ <- emit (EvLogPortBindings portBindings) in
          let config := dockerInput order containerImage input exposedPorts in
          do pull <- call (ImagePull (container.Image config) (pullOpt input))
                          (EvImagePull (container.Image config) (pullOpt input)) in
          match pull with
          | Some err => ret (None, Some (FromDocker err))
          | None =>
              do result <-
                (do read <- call ReadAll EvReadAll in
                 match read with
                 | Some err => ret (None, Some (FromDocker err))
                 | None => create_and_start config portBindings input
                 end) in
              do _ <- call (λ w, (tt, Close w)) (λ _, EvClose) in
              ret result
          end
      end
  end.

End Testcontainer.

(* ===================================================================== *)
(** ** What the properties speak of *)
(* ===================================================================== *)

(** Parts of what a computation gives: its value, the world it leaves and
    the calls it made. *)
Definition value {W A} (r : A * W * list Event) : A := r.1.1.
Definition world_after {W A} (r : A * W * list Event) : W := r.1.2.
Definition calls {W A} (r : A * W * list Event) : list Event := r.2.

(** An engine call reaches the daemon; making a client, parsing port specs
    and writing log lines do not. *)
Definition is_engine_call (ev : Event) : bool :=
  match ev with
  | EvImagePull _ _ _ | EvReadAll _ | EvContainerCreate _ _ _
  | EvContainerStart _ _ | EvContainerInspect _ _
  | EvContainerRemove _ _ _ => true
  | _ => false
  end.

(** The test of the loop of [GetMappedPort]: [key.Int() == port]. *)
Definition matches (port : Z) (entry : string * list PortBinding) : bool :=
  GoLib.Port_Int entry.1 =? port.

(** The error of a call that [RunContainer] makes before it has a handle
    (client, port specs, pull, reading the pull stream, create, start). *)
Definition failure_before_handle (ev : Event) : option error :=
  match ev with
  | EvNewEnvClient (Some e) => Some (FromDocker e)
  | EvParsePortSpecs _ (Some err) => Some err
  | EvImagePull _ _ (Some e) => Some (FromDocker e)
  | EvReadAll (Some e) => Some (FromDocker e)
  | EvContainerCreate _ _ (inr e) => Some (FromDocker e)
  | EvContainerStart _ (Some e) => Some (FromDocker e)
  | _ => None
  end.

(** The configurations given to [ContainerCreate] among some calls. *)
Definition created_configs (evs : list Event) : list container.Config :=
  omap (λ ev, match ev with
              | EvContainerCreate config _ _ => Some config
              | _ => None
              end) evs.

(** [GetMappedPort] called again and again on one handle for one port.
    Each call has an order of its own for its [range] and is made in a
    world of its own: between two calls the engine may have changed in any
    way.  The handle is the one the call before left. *)
Fixpoint GetMappedPort_repeatedly {W : Type} `{Docker W} (c : Container)
    (port : Z) (each : list (RangeOrder * W))
  : list (Outcome (Z * option error)) :=
  match each with
  | [] => []
  | (order, w) :: later =>
      let r := value (GetMappedPort order c port w) in
      r.1 :: GetMappedPort_repeatedly r.2 port later
  end.

(** At most one key of the port-binding map has the number [port]. *)
Definition one_key_per_number (snapshot : ContainerJSON) (port : Z) : Prop :=
  ∀ key1 key2,
    is_Some (types.Ports (NetworkSettings snapshot) !! key1) →
    is_Some (types.Ports (NetworkSettings snapshot) !! key2) →
    GoLib.Port_Int key1 = port → GoLib.Port_Int key2 = port → key1 = key2.

(** *** The accessors called one after another *)

(** A call of one of the three accessors of the handle, and its answer. *)
Inductive Accessor :=
| CallGetIPAddress
| CallLivenessCheckPorts
| CallGetMappedPort (order : RangeOrder) (port : Z).

Inductive Answer :=
| IPAddressIs (address : string) (err : option error)
| LivenessCheckPortsAre (ports : option (gset string)) (err : option error)
| MappedPortIs (out : Outcome (Z * option error)).

Definition is_panic (answer : Answer) : bool :=
  match answer with
  | MappedPortIs (Panicked _) => true
  | _ => false
  end.

Definition accessor_call {W : Type} `{Docker W} (a : Accessor) (c : Container)
  : IO W (Answer * Container) :=
  match a with
  | CallGetIPAddress =>
      do r <- GetIPAddress c in ret (IPAddressIs r.1.1 r.1.2, r.2)
  | CallLivenessCheckPorts =>
      do r <- LivenessCheckPorts c in ret (LivenessCheckPortsAre r.1.1 r.1.2, r.2)
  | CallGetMappedPort order port =>
      do r <- GetMappedPort order c port in ret (MappedPortIs r.1, r.2)
  end.

(** A caller that makes the calls of [todo] on one handle, one after the
    other, in one world; a panic ends the sequence. *)
Fixpoint accessor_calls {W : Type} `{Docker W} (todo : list Accessor)
    (c : Container) : IO W (list Answer * Container) :=
  match todo with
  | [] => ret ([], c)
  | a :: later =>
      do r <- accessor_call a c in
      if is_panic r.1 then ret ([r.1], r.2)
      else do rs <- accessor_calls later r.2 in
           ret (r.1 :: rs.1, rs.2)
  end.

(** What an accessor reads in a snapshot. *)
Definition answer_from (snapshot : ContainerJSON) (a : Accessor) : Answer :=
  match a with
  | CallGetIPAddress =>
      IPAddressIs (types.IPAddress (NetworkSettings snapshot)) None
  | CallLivenessCheckPorts =>
      LivenessCheckPortsAre
        (Some (container.ExposedPorts (Config snapshot))) None
  | CallGetMappedPort order port =>
      MappedPortIs
        match find (matches port)
                   (visit order (types.Ports (NetworkSettings snapshot))) with
        | None => Returned (0, Some (port_not_found port))
        | Some (_, []) => Panicked (IndexOutOfRange 0 0)
        | Some (_, val0 :: _) => Returned (Atoi (HostPort val0))
        end
  end.

(** The answers up to the first panic, the panic included. *)
Fixpoint until_panic (answers : list Answer) : list Answer :=
  match answers with
  | [] => []
  | answer :: later =>
      if is_panic answer then [answer] else answer :: until_panic later
  end.

(** The calls a handle is allowed by its accessors: making a client,
    inspecting the container of that identifier, and the log line. *)
Definition accessor_event (id : string) (ev : Event) : bool :=
  match ev with
  | EvNewEnvClient _ | EvLogPort _ _ => true
  | EvContainerInspect id' _ => String.eqb id' id
  | _ => false
  end.

(* ===================================================================== *)
(** ** The command line in the words of the spec *)
(* ===================================================================== *)

(** White space in the sense of Go's [unicode.IsSpace] on one byte: tab,
    line feed, vertical tab, form feed, carriage return and space. *)
Definition is_space (ch : ascii) : bool :=
  let n := Z.of_nat (nat_of_ascii ch) in
  ((9 <=? n) && (n <=? 13)) || (n =? 32).

(** The words of the spec, "tokenized on whitespace": the tokens of a
    string are its maximal runs of bytes that are not white space.  This
    definition follows the spec; the code's is [GoLib.Split _ " "]. *)
Fixpoint split_on_whitespace (s : string) : list string :=
  match s with
  | EmptyString => []
  | String ch s' =>
      if is_space ch then split_on_whitespace s'
      else match s' with
           | EmptyString => [String ch EmptyString]
           | String ch' _ =>
               if is_space ch' then String ch EmptyString :: split_on_whitespace s'
               else match split_on_whitespace s' with
                    | token :: tokens => String ch token :: tokens
                    | [] => [String ch EmptyString]
                    end
           end
  end.

(** A command "echo<TAB>hi". *)
Definition echo_tab_hi : string :=
  "echo" +:+ String (ascii_of_nat 9) "hi".

(* ===================================================================== *)
(** ** Accessor calls that overlap *)
(* ===================================================================== *)

(** [inspectContainer] has no lock and no atomic operation: the test of
    [c.raw] (line 57) and the assignment to it (line 68) are plain reads
    and writes of the handle.  A call is cut here at its accesses to what
    callers share, the handle and the engine; a goroutine in a call is at
    one of these points. *)
Inductive Thread :=
| AtCheck
| AtNewEnvClient
| AtContainerInspect
| AtStore (inspect : ContainerJSON)
| Finished (result : option ContainerJSON * option error).

(** What the goroutines share: the handle, the world, and the calls made
    so far. *)
Record Shared (W : Type) := {
  handle : Container;
  world : W;
  trace : list Event
}.
Arguments handle {W} _.
Arguments world {W} _.
Arguments trace {W} _.

(** The snapshots that successful engine inspections answered, in order. *)
Definition inspected (evs : list Event) : list ContainerJSON :=
  omap (λ ev, match ev with
              | EvContainerInspect _ (inl inspect) => Some inspect
              | _ => None
              end) evs.

(** A schedule in which the calls of [turns] run one after another, each
    to its end (a call takes at most four steps). *)
Definition one_after_another (turns : list nat) : list nat :=
  flat_map (λ i, [i; i; i; i]) turns.

(** A goroutine that has not yet asked the engine. *)
Definition before_inspect (t : Thread) : bool :=
  match t with
  | AtCheck | AtNewEnvClient | AtContainerInspect => true
  | _ => false
  end.

(** The snapshot a goroutine holds, to be stored or returned. *)
Definition snapshot_held (t : Thread) : option ContainerJSON :=
  match t with
  | AtStore snapshot => Some snapshot
  | Finished (Some snapshot, _) => Some snapshot
  | _ => None
  end.

(** The inspections asked of the engine among some calls, failed ones
    included. *)
Definition inspections_asked (evs : list Event) : nat :=
  length (List.filter (λ ev, match ev with
                             | EvContainerInspect _ _ => true
                             | _ => false
                             end) evs).

Section Interleaving.
Context {W : Type} `{Docker W}.

(** One step of a goroutine inside [inspectContainer].  The assignment of
    line 68 and the [return c.raw, nil] after it are one step here. *)
Definition thread_step (t : Thread) (s : Shared W) : Thread * Shared W :=
  match t with
  | AtCheck =>
      match raw (handle s) with
      | Some snapshot => (Finished (Some snapshot, None), s)
      | None => (AtNewEnvClient, s)
      end
  | AtNewEnvClient =>
      let '(cli, w') := NewEnvClient (world s) in
      (match cli with
       | Some err => Finished (None, Some (FromDocker err))
       | None => AtContainerInspect
       end,
       {| handle := handle s; world := w';
          trace := trace s ++ [EvNewEnvClient cli] |})
  | AtContainerInspect =>
      let '(inspect, w') := ContainerInspect (ID (handle s)) (world s) in
      (match inspect with
       | inl snapshot => AtStore snapshot
       | inr err => Finished (None, Some (FromDocker err))
       end,
       {| handle := handle s; world := w';
          trace := trace s ++ [EvContainerInspect (ID (handle s)) inspect] |})
  | AtStore snapshot =>
      (Finished (Some snapshot, None),
       {| handle := {| ID := ID (handle s); raw := Some snapshot |};
          world := world s; trace := trace s |})
  | Finished _ => (t, s)
  end.

(** The goroutines take steps in the order of the schedule (a list of
    indices into the list of goroutines). *)
Fixpoint run (schedule : list nat) (threads : list Thread) (s : Shared W)
  : list Thread * Shared W :=
  match schedule with
  | [] => (threads, s)
  | i :: later =>
      match threads !! i with
      | Some t =>
          let '(t', s') := thread_step t s in
          run later (<[i := t']> threads) s'
      | None => run later threads s
      end
  end.

(** What holds between the calls of a schedule without overlap, on a
    handle that started with an empty cache slot: the successful engine
    inspections so far are the one whose snapshot is in the cache slot,
    or none; and a call that has returned a snapshot has returned the
    one in the cache slot. *)
Definition between_calls (threads : list Thread) (s : Shared W) : Prop :=
  inspected (trace s) = match raw (handle s) with
                        | Some snapshot => [snapshot]
                        | None => []
                        end
  ∧ ∀ i snapshot oerr,
      threads !! i = Some (Finished (Some snapshot, oerr)) →
      raw (handle s) = Some snapshot.

(** What holds of overlapping calls at every moment, in any schedule, on
    a handle of identifier [id] shared by [n] callers: a snapshot that a
    call holds or that is in the cache slot was answered by the engine to
    an inspection; the identifier is [id]; and the inspections asked so
    far and the calls that have not asked yet are at most [n]. *)
Definition answered_only (id : string) (n : nat)
    (threads : list Thread) (s : Shared W) : Prop :=
  (∀ i t snapshot,
     threads !! i = Some t → snapshot_held t = Some snapshot →
     In snapshot (inspected (trace s)))
  ∧ (∀ snapshot,
       raw (handle s) = Some snapshot → In snapshot (inspected (trace s)))
  ∧ ID (handle s) = id
  ∧ (inspections_asked (trace s)
     + length (List.filter before_inspect threads) ≤ n)%nat.

End Interleaving.

(* ===================================================================== *)
(** ** A scripted engine *)
(* ===================================================================== *)

Module Sim.

(** The state of a simulated world: the answer each kind of call gets,
    the container created so far, and scripted answers to the next
    inspections (once they are used up, the engine reports the container
    it created, with the port bindings it was asked for). *)
Record World := {
  client : option DockerError;
  pull : option DockerError;
  read : option DockerError;
  create : string + DockerError;
  start : option DockerError;
  remove : option DockerError;
  created : option (container.Config * container.HostConfig);
  inspections : list (ContainerJSON + DockerError);
  closed : bool
}.

Definition no_such_container : DockerError :=
  {| docker_msg := "No such container" |}.

Definition inspect (w : World) : (ContainerJSON + DockerError) * World :=
  match inspections w with
  | answer :: later =>
      (answer,
       {| client := client w; pull := pull w; read := read w;
          create := create w; start := start w; remove := remove w;
          created := created w; inspections := later;
          closed := closed w |})
  | [] =>
      match created w with
      | Some (config, hostConfig) =>
          (inl {| Config := config;
                  NetworkSettings :=
                    {| types.IPAddress := "172.17.0.2";
                       types.Ports := container.PortBindings hostConfig |} |}, w)
      | None => (inr no_such_container, w)
      end
  end.

Definition do_create (config : container.Config) (hostConfig : container.HostConfig) (w : World)
  : (string + DockerError) * World :=
  match create w with
  | inl id =>
      (inl id,
       {| client := client w; pull := pull w; read := read w;
          create := create w; start := start w; remove := remove w;
          created := Some (config, hostConfig);
          inspections := inspections w; closed := closed w |})
  | inr err => (inr err, w)
  end.

Definition do_close (w : World) : World :=
  {| client := client w; pull := pull w; read := read w;
     create := create w; start := start w; remove := remove w;
     created := created w; inspections := inspections w; closed := true |}.

(** A port number as the stand-in parser accepts it: decimal digits, at
    most 65535. *)
Definition is_port_number (s : string) : bool :=
  match s, GoLib.digits_val 0 s with
  | String _ _, Some n => n <=? 65535
  | _, _ => false
  end.

(** Modelled from the spec: [nat.ParsePortSpecs] belongs to the
    go-connections library, which is not under src/.  This stand-in
    reads the forms "[hostPort:]containerPort[/protocol]" of the spec and
    refuses everything else (addresses, ranges); the theorems hold for
    any parser. *)
Definition parse_spec (spec : string) : (string * PortBinding) + error :=
  let unsupported :=
    inr (errorString ("Invalid port specification: " +:+ spec)) in
  let parse_ports (ports proto : string) :=
    let check (host cont : string) :=
      if negb (is_port_number cont)
      then inr (errorString ("Invalid containerPort: " +:+ cont))
      else if negb (String.eqb host "" || is_port_number host)
      then inr (errorString ("Invalid hostPort: " +:+ host))
      else inl (cont +:+ "/" +:+ proto, {| HostIP := ""; HostPort := host |}) in
    match GoLib.Split ports ":" with
    | [cont] => check "" cont
    | [host; cont] => check host cont
    | _ => unsupported
    end in
  match GoLib.Split spec "/" with
  | [ports] => parse_ports ports "tcp"
  | [ports; proto] =>
      if String.eqb proto "" then parse_ports ports "tcp"
      else if String.eqb proto "tcp" || String.eqb proto "udp"
              || String.eqb proto "sctp"
      then parse_ports ports proto
      else inr (errorString ("Invalid proto: " +:+ proto))
  | _ => unsupported
  end.

(** Modelled from the spec: the exposed ports and the bindings of a list
    of port specifications, the bindings of one port in the order of the
    list; the first specification that does not parse fails the list. *)
Fixpoint parse_specs (specs : list string)
  : (gset string * gmap string (list PortBinding)) + error :=
  match specs with
  | [] => inl (∅, ∅)
  | spec :: rest =>
      match parse_spec spec, parse_specs rest with
      | inl (port, binding), inl (exposed, bindings) =>
          inl ({[ port ]} ∪ exposed,
               <[ port := binding :: default [] (bindings !! port) ]> bindings)
      | inr err, _ => inr err
      | _, inr err => inr err
      end
  end.

#[global] Instance docker : Docker World := {
  NewEnvClient w := (client w, w);
  ParsePortSpecs := parse_specs;
  ImagePull _ _ w := (pull w, w);
  ReadAll w := (read w, w);
  Close := do_close;
  ContainerCreate := do_create;
  ContainerStart _ w := (start w, w);
  ContainerInspect _ := inspect;
  ContainerRemove _ _ w := (remove w, w)
}.

(** A world in which every call succeeds and nothing is created yet. *)
Definition healthy : World :=
  {| client := None; pull := None; read := None; create := inl "c0ffee";
     start := None; remove := None; created := None; inspections := [];
     closed := false |}.

(** A world whose next inspections answer what the script says. *)
Definition answering (answers : list (ContainerJSON + DockerError)) : World :=
  {| client := None; pull := None; read := None; create := inl "c0ffee";
     start := None; remove := None; created := None;
     inspections := answers; closed := false |}.

Definition unreachable : DockerError :=
  {| docker_msg := "Cannot connect to the Docker daemon" |}.

(** A world in which no client can be made. *)
Definition no_client : World :=
  {| client := Some unreachable; pull := None; read := None;
     create := inl "c0ffee"; start := None; remove := None;
     created := None; inspections := []; closed := false |}.

(** A readiness strategy that fails at once and leaves the handle. *)
Definition never_ready : WaitStrategy World :=
  {| WaitUntilReady c w := ((Some (errorString "not ready"), c), w) |}.

(** A snapshot with the given port bindings. *)
Definition snapshot (ports : gmap string (list PortBinding)) : ContainerJSON :=
  {| Config := {| container.Image := "nginx"; container.Env := [];
                  container.ExposedPorts := dom ports;
                  container.Cmd := [] |};
     NetworkSettings := {| types.IPAddress := "172.17.0.2"; types.Ports := ports |} |}.

Definition request (ports : list string) (cmd : string)
    (strategy : option (WaitStrategy World)) : RequestContainer World :=
  {| Env := {[ "FOO" := "bar" ]}; ExportedPort := ports; Cmd := cmd;
     RegistryCred := ""; WaitingFor := strategy |}.

(** A handle just made by [RunContainer], and one that holds a snapshot. *)
Definition fresh : Container := {| ID := "c0ffee"; raw := None |}.

Definition holding (inspect : ContainerJSON) : Container :=
  {| ID := "c0ffee"; raw := Some inspect |}.

(** Port 80 published once: 80/tcp on host port 8080. *)
Definition one_protocol : gmap string (list PortBinding) :=
  {[ "80/tcp" := [ {| HostIP := "0.0.0.0"; HostPort := "8080" |} ] ]}.

(** Port 80 published for both protocols, on different host ports. *)
Definition two_protocols : gmap string (list PortBinding) :=
  {[ "80/tcp" := [ {| HostIP := "0.0.0.0"; HostPort := "8080" |} ];
     "80/udp" := [ {| HostIP := "0.0.0.0"; HostPort := "9090" |} ] ]}.

(** Port 80 exposed by the image and not published. *)
Definition unpublished : gmap string (list PortBinding) :=
  {[ "80/tcp" := [] ]}.

End Sim.

(* ===================================================================== *)
(** ** The library functions on small inputs *)
(* ===================================================================== *)

Example Split_cmd : GoLib.Split "echo hello  world" " " = ["echo"; "hello"; ""; "world"].
Proof. reflexivity. Qed.

Example Atoi_8080 : GoLib.Atoi_raw "8080" = (8080, None).
Proof. reflexivity. Qed.

Example Atoi_empty : GoLib.Atoi_raw "" = (0, Some GoLib.ErrSyntax).
Proof. reflexivity. Qed.

Example Port_Int_tcp : GoLib.Port_Int "80/tcp" = 80.
Proof. reflexivity. Qed.

Example Port_Int_udp : GoLib.Port_Int "80/udp" = 80.
Proof. reflexivity. Qed.

Example fmt_d_80 : GoLib.fmt_d 80 = "80".
Proof. vm_compute. reflexivity. Qed.

(* ===================================================================== *)
(** ** Properties of the handle *)
(* ===================================================================== *)

Section Handle.
Context {W : Type} `{Docker W}.

Implicit Types (c : Container) (w : W) (port : Z) (order : RangeOrder).
Implicit Types (snapshot : ContainerJSON) (ports : gmap string (list PortBinding)).

(** *** [inspectContainer] *)

Lemma inspectContainer_cached c w snapshot :
  raw c = Some snapshot →
  inspectContainer c w = (((Some snapshot, None), c), w, []).
Proof. intros Hraw. unfold inspectContainer. rewrite Hraw. reflexivity. Qed.

(** The three ways [inspectContainer] ends on a handle whose cache slot
    is empty. *)
Lemma inspectContainer_fresh c w :
  raw c = None →
  inspectContainer c w =
    match NewEnvClient w with
    | (Some err, w1) =>
        (((None, Some (FromDocker err)), c), w1, [EvNewEnvClient (Some err)])
    | (None, w1) =>
        match ContainerInspect (ID c) w1 with
        | (inr err, w2) =>
            (((None, Some (FromDocker err)), c), w2,
             [EvNewEnvClient None; EvContainerInspect (ID c) (inr err)])
        | (inl snapshot, w2) =>
            (((Some snapshot, None), {| ID := ID c; raw := Some snapshot |}),
             w2,
             [EvNewEnvClient None; EvContainerInspect (ID c) (inl snapshot)])
        end
    end.
Proof.
  intros Hraw. unfold inspectContainer, bind, call, ret. rewrite Hraw.
  destruct (NewEnvClient w) as [[err|] w1]; [reflexivity|].
  destruct (ContainerInspect (ID c) w1) as [[snapshot|err] w2]; reflexivity.
Qed.

(** A snapshot comes back with a handle that holds it. *)
Lemma inspectContainer_Some c w snapshot oerr c' w' evs :
  inspectContainer c w = (((Some snapshot, oerr), c'), w', evs) →
  oerr = None ∧ raw c' = Some snapshot ∧ ID c' = ID c.
Proof.
  destruct (raw c) as [s|] eqn:Hraw.
  - rewrite (inspectContainer_cached _ _ _ Hraw). intros [= <- <- <- _ _].
    auto.
  - rewrite (inspectContainer_fresh _ _ Hraw).
    destruct (NewEnvClient w) as [[err|] w1]; [discriminate|].
    destruct (ContainerInspect (ID c) w1) as [[s|err] w2]; [|discriminate].
    intros [= <- <- <- _ _]. auto.
Qed.

(** An error comes back only from an empty cache slot, which it leaves
    empty; it is an error of the docker client. *)
Lemma inspectContainer_error c w osnap err c' w' evs :
  inspectContainer c w = (((osnap, Some err), c'), w', evs) →
  raw c = None ∧ c' = c ∧ osnap = None ∧ ∃ e, err = FromDocker e.
Proof.
  destruct (raw c) as [s|] eqn:Hraw.
  - rewrite (inspectContainer_cached _ _ _ Hraw). discriminate.
  - rewrite (inspectContainer_fresh _ _ Hraw).
    destruct (NewEnvClient w) as [[e|] w1].
    + intros [= <- <- <- _ _]. eauto.
    + destruct (ContainerInspect (ID c) w1) as [[s|e] w2]; [discriminate|].
      intros [= <- <- <- _ _]. eauto.
Qed.

(** There is no other way [inspectContainer] ends. *)
Lemma inspectContainer_cases c w :
  (∃ snapshot c', value (inspectContainer c w) = ((Some snapshot, None), c'))
  ∨ (∃ e, value (inspectContainer c w) = ((None, Some (FromDocker e)), c)).
Proof.
  destruct (raw c) as [s|] eqn:Hraw.
  - rewrite (inspectContainer_cached _ _ _ Hraw). left. eauto.
  - rewrite (inspectContainer_fresh _ _ Hraw).
    destruct (NewEnvClient w) as [[e|] w1]; [right; eauto|].
    destruct (ContainerInspect (ID c) w1) as [[s|e] w2];
      [left|right]; eauto.
Qed.

(** *** The loop of [GetMappedPort] *)

(** The loop stops at the first entry it visits whose key has the
    number asked for, and looks at nothing but the head of its list. *)
Lemma GetMappedPort_range_find entries port w :
  GetMappedPort_range entries port w =
    match find (matches port) entries with
    | None => (None, w, [])
    | Some (_, []) => (Some (Panicked (IndexOutOfRange 0 0)), w, [])
    | Some (_, val0 :: _) =>
        (Some (Returned (Atoi (HostPort val0))), w,
         [EvLogPort port (HostPort val0)])
    end.
Proof.
  induction entries as [|[key val] rest IH]; [reflexivity|].
  cbn [GetMappedPort_range find]. unfold matches at 1. cbn [fst].
  destruct (GoLib.Port_Int key =? port); [|exact IH].
  destruct val; reflexivity.
Qed.

Lemma visit_lookup {V} order (m : gmap string V) key val :
  (key, val) ∈ visit order m ↔ m !! key = Some val.
Proof. rewrite (visit_perm order V m). apply elem_of_map_to_list. Qed.

(** Whatever the order, the entry the loop stops at is an entry of the
    map with the number asked for. *)
Lemma find_visit_Some order ports port key val :
  find (matches port) (visit order ports) = Some (key, val) →
  ports !! key = Some val ∧ GoLib.Port_Int key = port.
Proof.
  intros Hfind. apply find_some in Hfind as [Hin Hm].
  apply list_elem_of_In, visit_lookup in Hin.
  unfold matches in Hm. cbn in Hm. split; [done|lia].
Qed.

(** The loop runs to its end exactly when no key has that number. *)
Lemma find_visit_None order ports port :
  find (matches port) (visit order ports) = None ↔
  ∀ key val, ports !! key = Some val → GoLib.Port_Int key ≠ port.
Proof.
  split.
  - intros Hfind key val Hlook Hint.
    apply visit_lookup with (order := order), list_elem_of_In in Hlook.
    pose proof (find_none _ _ Hfind _ Hlook) as Hm.
    unfold matches in Hm. cbn in Hm. lia.
  - intros Hnone.
    destruct (find (matches port) (visit order ports)) as [[key val]|] eqn:Hfind;
      [|reflexivity].
    apply find_visit_Some in Hfind as [Hlook Hint].
    exfalso. eapply Hnone; eauto.
Qed.

(** When one key only has that number, every order stops at it. *)
Lemma find_visit_unique order ports port key val :
  ports !! key = Some val →
  GoLib.Port_Int key = port →
  (∀ key', is_Some (ports !! key') → GoLib.Port_Int key' = port → key' = key) →
  find (matches port) (visit order ports) = Some (key, val).
Proof.
  intros Hlook Hint Huniq.
  destruct (find (matches port) (visit order ports)) as [[key' val']|] eqn:Hfind.
  - apply find_visit_Some in Hfind as [Hlook' Hint'].
    assert (key' = key) as -> by (apply Huniq; eauto).
    congruence.
  - exfalso. eapply (proj1 (find_visit_None order ports port)); eauto.
Qed.

(** [GetMappedPort] once the inspection has given a snapshot. *)
Lemma GetMappedPort_inspected order c port w snapshot c' w' evs :
  inspectContainer c w = (((Some snapshot, None), c'), w', evs) →
  GetMappedPort order c port w =
    match find (matches port) (visit order (types.Ports (NetworkSettings snapshot))) with
    | None => ((Returned (0, Some (port_not_found port)), c'), w', evs)
    | Some (_, []) => ((Panicked (IndexOutOfRange 0 0), c'), w', evs)
    | Some (_, val0 :: _) =>
        ((Returned (Atoi (HostPort val0)), c'), w',
         evs ++ [EvLogPort port (HostPort val0)])
    end.
Proof.
  intros Hinspect. unfold GetMappedPort, bind. rewrite Hinspect.
  rewrite GetMappedPort_range_find.
  destruct (find _ _) as [[key [|val0 rest]]|]; cbn;
    rewrite ?app_nil_r; reflexivity.
Qed.

(** [GetMappedPort] when the inspection fails: the error of the
    inspection, unchanged. *)
Lemma GetMappedPort_inspect_failed order c port w osnap err c' w' evs :
  inspectContainer c w = (((osnap, Some err), c'), w', evs) →
  GetMappedPort order c port w = ((Returned (0, Some err), c), w', evs).
Proof.
  intros Hinspect.
  destruct (inspectContainer_error _ _ _ _ _ _ _ Hinspect) as (_ & -> & -> & _).
  unfold GetMappedPort, bind. rewrite Hinspect. cbn.
  rewrite app_nil_r. reflexivity.
Qed.

End Handle.

Section HandleTheorems.
Context {W : Type} `{Docker W}.

Implicit Types (c : Container) (w : W) (port : Z) (order : RangeOrder).
Implicit Types (snapshot : ContainerJSON).

(** C8. [GetMappedPort] reads [val[0]] of the entry it stops at without
    checking the length of [val]: when the container port asked for is a
    key of the port-binding map of the snapshot and its list of bindings
    is empty, the call panics with an index out of range (index 0,
    length 0) instead of returning an error.  The snapshot may be cached
    or just fetched; the handle keeps it. *)
Theorem GetMappedPort_empty_bindings_panic
    order c w snapshot c' w' evs port key :
  inspectContainer c w = (((Some snapshot, None), c'), w', evs) →
  types.Ports (NetworkSettings snapshot) !! key = Some [] →
  GoLib.Port_Int key = port →
  (∀ key', is_Some (types.Ports (NetworkSettings snapshot) !! key') →
           GoLib.Port_Int key' = port → key' = key) →
  GetMappedPort order c port w =
    ((Panicked (IndexOutOfRange 0 0), c'), w', evs).
Proof.
  intros Hinspect Hlook Hint Huniq.
  rewrite (GetMappedPort_inspected _ _ _ _ _ _ _ _ Hinspect).
  rewrite (find_visit_unique order _ port key [] Hlook Hint Huniq).
  reflexivity.
Qed.


(** C9. The cache slot is written only by a successful inspection.  When
    an inspection attempt fails (no client, or the engine's inspect
    fails) the slot was empty and stays empty, the handle is unchanged,
    and the next call starts over and reuses nothing: it makes a client
    again and, when that succeeds, asks the engine again and answers
    what the engine answers then. *)
Theorem inspectContainer_failure_not_cached c w osnap err c' w' evs :
  inspectContainer c w = (((osnap, Some err), c'), w', evs) →
  raw c = None ∧ c' = c ∧ osnap = None ∧
  ∀ w2,
    match NewEnvClient w2 with
    | (Some e, w3) =>
        inspectContainer c' w2 =
          (((None, Some (FromDocker e)), c'), w3, [EvNewEnvClient (Some e)])
    | (None, w3) =>
        match ContainerInspect (ID c') w3 with
        | (inl snapshot, w4) =>
            inspectContainer c' w2 =
              (((Some snapshot, None), {| ID := ID c'; raw := Some snapshot |}),
               w4,
               [EvNewEnvClient None;
                EvContainerInspect (ID c') (inl snapshot)])
        | (inr e, w4) =>
            inspectContainer c' w2 =
              (((None, Some (FromDocker e)), c'), w4,
               [EvNewEnvClient None; EvContainerInspect (ID c') (inr e)])
        end
    end.
Proof.
  intros Hinspect.
  destruct (inspectContainer_error _ _ _ _ _ _ _ Hinspect)
    as (Hraw & -> & -> & _).
  repeat split; try done.
  intros w2. rewrite (inspectContainer_fresh c w2 Hraw).
  destruct (NewEnvClient w2) as [[e|] w3]; [reflexivity|].
  destruct (ContainerInspect (ID c) w3) as [[snapshot|e] w4]; reflexivity.
Qed.

End HandleTheorems.

Lemma GetMappedPort_empty_bindings_panic_witness :
  GetMappedPort listed {| ID := "c0ffee"; raw := None |} 80
    (Sim.answering [inl (Sim.snapshot {[ "80/tcp" := [] ]})]) =
  ((Panicked (IndexOutOfRange 0 0),
    {| ID := "c0ffee"; raw := Some (Sim.snapshot {[ "80/tcp" := [] ]}) |}),
   Sim.answering [],
   [EvNewEnvClient None;
    EvContainerInspect "c0ffee" (inl (Sim.snapshot {[ "80/tcp" := [] ]}))]).
Proof.
  apply (GetMappedPort_empty_bindings_panic listed _ _
           (Sim.snapshot {[ "80/tcp" := [] ]}) _ _ _ 80 "80/tcp").
  - reflexivity.
  - reflexivity.
  - reflexivity.
  - intros key' [val Hval] _. cbn in Hval.
    apply lookup_singleton_Some in Hval as [<- _]. reflexivity.
Defined.


Lemma inspectContainer_failure_not_cached_witness :
  inspectContainer {| ID := "c0ffee"; raw := None |} Sim.no_client =
    (((None, Some (FromDocker Sim.unreachable)),
      {| ID := "c0ffee"; raw := None |}),
     Sim.no_client, [EvNewEnvClient (Some Sim.unreachable)])
  ∧ inspectContainer {| ID := "c0ffee"; raw := None |}
      (Sim.answering [inl (Sim.snapshot ∅)]) =
    (((Some (Sim.snapshot ∅), None),
      {| ID := "c0ffee"; raw := Some (Sim.snapshot ∅) |}),
     Sim.answering [],
     [EvNewEnvClient None; EvContainerInspect "c0ffee" (inl (Sim.snapshot ∅))]).
Proof.
  assert (inspectContainer {| ID := "c0ffee"; raw := None |} Sim.no_client =
            (((None, Some (FromDocker Sim.unreachable)),
              {| ID := "c0ffee"; raw := None |}),
             Sim.no_client, [EvNewEnvClient (Some Sim.unreachable)]))
    as Hfailed by reflexivity.
  split; [exact Hfailed|].
  destruct (inspectContainer_failure_not_cached _ _ _ _ _ _ _ Hfailed)
    as (_ & _ & _ & Hnext).
  exact (Hnext (Sim.answering [inl (Sim.snapshot ∅)])).
Defined.

Section Caching.
Context {W : Type} `{Docker W}.

Implicit Types (c : Container) (w : W) (port : Z) (order : RangeOrder).
Implicit Types (snapshot : ContainerJSON).

(** On a handle that holds a snapshot with no key of that number, a call
    makes no call at all and leaves the handle as it is. *)
Lemma GetMappedPort_cached_absent order c port w snapshot :
  raw c = Some snapshot →
  (∀ key val, types.Ports (NetworkSettings snapshot) !! key = Some val →
              GoLib.Port_Int key ≠ port) →
  GetMappedPort order c port w =
    ((Returned (0, Some (port_not_found port)), c), w, []).
Proof.
  intros Hraw Habsent.
  rewrite (GetMappedPort_inspected _ _ _ _ _ _ _ _
             (inspectContainer_cached c w snapshot Hraw)).
  rewrite (proj2 (find_visit_None order _ port) Habsent). reflexivity.
Qed.

Lemma GetMappedPort_repeatedly_absent c port snapshot each :
  raw c = Some snapshot →
  (∀ key val, types.Ports (NetworkSettings snapshot) !! key = Some val →
              GoLib.Port_Int key ≠ port) →
  Forall (λ out, out = Returned (0, Some (port_not_found port)))
         (GetMappedPort_repeatedly c port each).
Proof.
  intros Hraw Habsent.
  induction each as [|[order w] later IH]; cbn [GetMappedPort_repeatedly].
  - constructor.
  - rewrite (GetMappedPort_cached_absent order c port w snapshot Hraw Habsent).
    constructor; [reflexivity|exact IH].
Qed.


(** With at most one key of that number, the entry the loop stops at
    does not depend on the order. *)
Lemma find_visit_order_irrelevant order1 order2 snapshot port :
  one_key_per_number snapshot port →
  find (matches port) (visit order1 (types.Ports (NetworkSettings snapshot))) =
  find (matches port) (visit order2 (types.Ports (NetworkSettings snapshot))).
Proof.
  intros Hone.
  destruct (find (matches port) (visit order1 _)) as [[key val]|] eqn:Hfind.
  - apply find_visit_Some in Hfind as [Hlook Hint]. symmetry.
    apply find_visit_unique; [done|done|].
    intros key' Hsome Hint'. apply Hone; eauto.
  - symmetry. apply find_visit_None.
    exact (proj1 (find_visit_None order1 _ port) Hfind).
Qed.

(** C4, as the code has it.  The snapshot of the first successful
    inspection is put in the cache slot, and every later accessor call
    on the handle ([inspectContainer], [GetIPAddress],
    [LivenessCheckPorts], [GetMappedPort]) reads that snapshot and makes
    no call to the client or the engine, whatever the engine has become.
    Hence, when at most one key of the cached port-binding map has the
    number asked for, a second [GetMappedPort] for that port returns
    what the first returned. *)
Theorem GetMappedPort_cached_idempotent
    order1 c w snapshot c1 w1 evs port :
  inspectContainer c w = (((Some snapshot, None), c1), w1, evs) →
  raw c1 = Some snapshot
  ∧ (∀ w2, inspectContainer c1 w2 = (((Some snapshot, None), c1), w2, []))
  ∧ (∀ w2, GetIPAddress c1 w2 =
             (((types.IPAddress (NetworkSettings snapshot), None), c1), w2, []))
  ∧ (∀ w2, LivenessCheckPorts c1 w2 =
             (((Some (container.ExposedPorts (Config snapshot)), None), c1), w2, []))
  ∧ (∀ order2 w2,
       world_after (GetMappedPort order2 c1 port w2) = w2 ∧
       Forall (λ ev, is_engine_call ev = false)
              (calls (GetMappedPort order2 c1 port w2)) ∧
       (one_key_per_number snapshot port →
        value (GetMappedPort order2 c1 port w2) =
        value (GetMappedPort order1 c port w))).
Proof.
  intros Hinspect.
  destruct (inspectContainer_Some _ _ _ _ _ _ _ Hinspect) as (_ & Hraw & _).
  pose proof (λ w2, inspectContainer_cached c1 w2 snapshot Hraw) as Hcached.
  split; [exact Hraw|]. split; [exact Hcached|].
  split; [|split].
  - intros w2. unfold GetIPAddress, bind. rewrite Hcached. reflexivity.
  - intros w2. unfold LivenessCheckPorts, bind. rewrite Hcached. reflexivity.
  - intros order2 w2.
    rewrite (GetMappedPort_inspected _ _ _ _ _ _ _ _ (Hcached w2)).
    rewrite (GetMappedPort_inspected _ _ _ _ _ _ _ _ Hinspect).
    split; [|split].
    + destruct (find _ _) as [[key [|val0 rest]]|]; reflexivity.
    + destruct (find _ _) as [[key [|val0 rest]]|]; cbn; repeat constructor.
    + intros Hone.
      rewrite (find_visit_order_irrelevant order2 order1 snapshot port Hone).
      destruct (find _ _) as [[key [|val0 rest]]|]; reflexivity.
Qed.

End Caching.


Lemma GetMappedPort_cached_idempotent_witness :
  value (GetMappedPort listed Sim.fresh 80
           (Sim.answering [inl (Sim.snapshot Sim.one_protocol)])) =
    (Returned (8080, None), Sim.holding (Sim.snapshot Sim.one_protocol))
  ∧ value (GetMappedPort reversed
             (Sim.holding (Sim.snapshot Sim.one_protocol)) 80 Sim.no_client) =
    (Returned (8080, None), Sim.holding (Sim.snapshot Sim.one_protocol)).
Proof.
  assert (value (GetMappedPort listed Sim.fresh 80
                   (Sim.answering [inl (Sim.snapshot Sim.one_protocol)])) =
          (Returned (8080, None), Sim.holding (Sim.snapshot Sim.one_protocol)))
    as Hfirst by (vm_compute; reflexivity).
  split; [exact Hfirst|].
  rewrite <- Hfirst.
  apply (GetMappedPort_cached_idempotent listed Sim.fresh
           (Sim.answering [inl (Sim.snapshot Sim.one_protocol)])
           (Sim.snapshot Sim.one_protocol)
           (Sim.holding (Sim.snapshot Sim.one_protocol))
           (Sim.answering [])
           [EvNewEnvClient None;
            EvContainerInspect "c0ffee" (inl (Sim.snapshot Sim.one_protocol))]
           80).
  - reflexivity.
  - intros key1 key2 [val1 Hval1] [val2 Hval2] _ _. cbn in Hval1, Hval2.
    unfold Sim.one_protocol in Hval1, Hval2.
    apply lookup_singleton_Some in Hval1 as [<- _].
    apply lookup_singleton_Some in Hval2 as [<- _]. reflexivity.
Defined.

(** C4 as the spec states it fails: 80/tcp and 80/udp are two keys of the
    number 80.  The first call fetches and caches the snapshot and returns
    9090; the second call, on the handle the first one left, visits the
    cached map in another order and returns 8080. *)
Lemma GetMappedPort_twice_two_protocols :
  value (GetMappedPort listed Sim.fresh 80
           (Sim.answering [inl (Sim.snapshot Sim.two_protocols)])) =
    (Returned (9090, None), Sim.holding (Sim.snapshot Sim.two_protocols))
  ∧ value (GetMappedPort reversed
             (Sim.holding (Sim.snapshot Sim.two_protocols)) 80
             (Sim.answering [])) =
    (Returned (8080, None), Sim.holding (Sim.snapshot Sim.two_protocols)).
Proof. split; vm_compute; reflexivity. Qed.

(* ===================================================================== *)
(** ** Properties of [RunContainer] *)
(* ===================================================================== *)

Section Run.
Context {W : Type} `{Docker W}.

Implicit Types (w : W) (order : RangeOrder) (input : RequestContainer W).

(** Every path through [RunContainer], with the calls made on it. *)
Lemma RunContainer_paths order image input w :
  RunContainer order image input w =
    match NewEnvClient w with
    | (Some e, w1) =>
        ((None, Some (FromDocker e)), w1, [EvNewEnvClient (Some e)])
    | (None, w1) =>
    let parse := EvParsePortSpecs (ExportedPort input) in
    match ParsePortSpecs (ExportedPort input) with
    | inr err =>
        ((None, Some err), w1, [EvNewEnvClient None; parse (Some err)])
    | inl (exposedPorts, portBindings) =>
    let config := dockerInput order image input exposedPorts in
    let hostConfig := {| container.PortBindings := portBindings |} in
    let pulling :=
      [EvNewEnvClient None; parse None; EvLogPortBindings portBindings] in
    let pull := EvImagePull image (pullOpt input) in
    match ImagePull image (pullOpt input) w1 with
    | (Some e, w2) =>
        ((None, Some (FromDocker e)), w2, pulling ++ [pull (Some e)])
    | (None, w2) =>
    match ReadAll w2 with
    | (Some e, w3) =>
        ((None, Some (FromDocker e)), Close w3,
         pulling ++ [pull None; EvReadAll (Some e); EvClose])
    | (None, w3) =>
    let create := EvContainerCreate config hostConfig in
    match ContainerCreate config hostConfig w3 with
    | (inr e, w4) =>
        ((None, Some (FromDocker e)), Close w4,
         pulling ++ [pull None; EvReadAll None; create (inr e); EvClose])
    | (inl id, w4) =>
    match ContainerStart id w4 with
    | (Some e, w5) =>
        ((None, Some (FromDocker e)), Close w5,
         pulling ++ [pull None; EvReadAll None; create (inl id);
                     EvContainerStart id (Some e); EvClose])
    | (None, w5) =>
    let started :=
      pulling ++ [pull None; EvReadAll None; create (inl id);
                  EvContainerStart id None] in
    match WaitingFor input with
    | None =>
        ((Some {| ID := id; raw := None |}, None), Close w5,
         started ++ [EvClose])
    | Some strategy =>
        match WaitUntilReady strategy {| ID := id; raw := None |} w5 with
        | ((oerr, c), w6) =>
            ((Some c, oerr), Close w6,
             started ++ [EvWaitUntilReady id oerr; EvClose])
        end
    end end end end end end end.
Proof.
  unfold RunContainer, create_and_start, bind, call, ret, emit.
  destruct (NewEnvClient w) as [[e|] w1]; [reflexivity|].
  destruct (ParsePortSpecs (ExportedPort input))
    as [[exposedPorts portBindings]|err]; [|reflexivity].
  cbn [container.Image dockerInput].
  destruct (ImagePull image (pullOpt input) w1) as [[e|] w2]; [reflexivity|].
  destruct (ReadAll w2) as [[e|] w3]; [reflexivity|].
  destruct (ContainerCreate _ _ w3) as [[id|e] w4]; [|reflexivity].
  destruct (ContainerStart id w4) as [[e|] w5]; [reflexivity|].
  destruct (WaitingFor input) as [strategy|]; [|reflexivity].
  destruct (WaitUntilReady strategy _ w5) as [[[err|] c] w6]; reflexivity.
Qed.


End Run.

Section Command.
Context {W : Type} `{Docker W}.

Implicit Types (w : W) (order : RangeOrder) (input : RequestContainer W).

(** [strings.Split] never gives an empty slice. *)
Lemma Split_not_nil s sep : GoLib.Split s sep ≠ [].
Proof.
  destruct s as [|ch s]; cbn; [discriminate|].
  destruct (Ascii.eqb ch sep); [discriminate|].
  destruct (GoLib.Split s sep); discriminate.
Qed.

(** The tokens come back joined by the separator: nothing of the string
    is lost or changed by [strings.Split]. *)
Lemma Split_join s sep :
  fold_right (λ token joined,
                match joined with
                | None => Some token
                | Some j => Some (token +:+ String sep j)
                end) None (GoLib.Split s sep) = Some s.
Proof.
  induction s as [|ch s IH]; [reflexivity|].
  cbn [GoLib.Split]. destruct (Ascii.eqb_spec ch sep) as [->|Hne].
  - cbn. rewrite IH. reflexivity.
  - destruct (GoLib.Split s sep) as [|token tokens] eqn:Hsplit.
    + exfalso. exact (Split_not_nil s sep Hsplit).
    + cbn in IH |- *.
      destruct (fold_right _ None tokens) as [j|];
        injection IH as <-; reflexivity.
Qed.

(** No token of [strings.Split] contains the separator. *)
Lemma Split_no_sep s sep token :
  In token (GoLib.Split s sep) →
  ¬ In sep (list_ascii_of_string token).
Proof.
  revert token. induction s as [|ch s IH]; intros token.
  - intros [<-|[]]. cbn. tauto.
  - cbn [GoLib.Split]. destruct (Ascii.eqb_spec ch sep) as [->|Hne].
    + intros [<-|Hin]; [cbn; tauto|]. exact (IH token Hin).
    + destruct (GoLib.Split s sep) as [|t ts].
      * intros [<-|[]]. cbn. intros [?|[]]. congruence.
      * intros [<-|Hin].
        -- cbn. intros [?|Hin]; [congruence|].
           exact (IH t (or_introl eq_refl) Hin).
        -- exact (IH token (or_intror Hin)).
Qed.

(** C5, as the code has it.  Whenever [RunContainer] creates a
    container, the configuration it passes has no command when the
    request's command string is empty, and otherwise the command is the
    string cut at every space character (U+0020): [strings.Split(input.Cmd,
    " ")].  That list is never empty, its tokens joined by single spaces
    give the string back, and no token contains a space; two adjacent
    spaces give an empty token, and tabs and line ends do not separate.
    A request that comes back with a handle has created a container. *)
Theorem RunContainer_command order image input w :
  (∀ config hostConfig res,
     In (EvContainerCreate config hostConfig res)
        (calls (RunContainer order image input w)) →
     container.Cmd config = if String.eqb (Cmd input) "" then []
                  else GoLib.Split (Cmd input) " ")
  ∧ GoLib.Split (Cmd input) " " ≠ []
  ∧ fold_right (λ token joined,
                  match joined with
                  | None => Some token
                  | Some j => Some (token +:+ String " " j)
                  end) None (GoLib.Split (Cmd input) " ")
    = Some (Cmd input)
  ∧ (∀ token, In token (GoLib.Split (Cmd input) " ") →
              ¬ In " "%char (list_ascii_of_string token))
  ∧ (∀ c oerr,
       value (RunContainer order image input w) = (Some c, oerr) →
       ∃ config, created_configs (calls (RunContainer order image input w))
                 = [config]).
Proof.
  split; [|split; [apply Split_not_nil|split; [apply Split_join|
           split; [intros token; apply Split_no_sep|]]]];
    rewrite RunContainer_paths;
    destruct (NewEnvClient w) as [[e|] w1];
    try destruct (ParsePortSpecs (ExportedPort input))
      as [[exposedPorts portBindings]|perr];
    cbv zeta;
    try destruct (ImagePull image (pullOpt input) w1) as [[e|] w2];
    try destruct (ReadAll w2) as [[e|] w3];
    try destruct (ContainerCreate _ _ w3) as [[id0|e] w4];
    try destruct (ContainerStart id0 w4) as [[e|] w5];
    try destruct (WaitingFor input) as [strategy|];
    try destruct (WaitUntilReady strategy _ w5) as [[oerr' c'] w6].
  all: try (intros config hostConfig res Hin; cbn in Hin;
            repeat (destruct Hin as [Heq|Hin]; [try discriminate Heq|]);
            try (destruct Hin);
            injection Heq as <- _ _; reflexivity).
  all: intros c oerr Hvalue; try discriminate Hvalue; cbn; eauto.
Qed.

End Command.

(** C5 as the spec states it fails: a tab is white space and does not
    separate for the code, and two adjacent spaces give the code an empty
    token.  Both requests reach the creation. *)
Lemma RunContainer_command_not_whitespace_split :
  (created_configs
     (calls (RunContainer listed "alpine"
               (Sim.request [] echo_tab_hi None) Sim.healthy))
   = [ {| container.Image := "alpine"; container.Env := ["FOO=bar"];
          container.ExposedPorts := ∅; container.Cmd := [echo_tab_hi] |} ]
   ∧ split_on_whitespace echo_tab_hi = ["echo"; "hi"])
  ∧ (created_configs
       (calls (RunContainer listed "alpine"
                 (Sim.request [] "sleep  60" None) Sim.healthy))
     = [ {| container.Image := "alpine"; container.Env := ["FOO=bar"];
            container.ExposedPorts := ∅;
            container.Cmd := ["sleep"; ""; "60"] |} ]
     ∧ split_on_whitespace "sleep  60" = ["sleep"; "60"]).
Proof. repeat split; vm_compute; reflexivity. Qed.

Section Lifecycle.
Context {W : Type} `{Docker W}.

Implicit Types (w : W) (order : RangeOrder) (input : RequestContainer W).

(** X1. When the start fails, the container has been created under the
    identifier that failed to start, [RunContainer] returns a nil handle
    and the error of the start, and it does not remove the container: the
    engine keeps a container no handle refers to. *)
Theorem RunContainer_start_failure_leaves_container
    order image input w id e :
  In (EvContainerStart id (Some e)) (calls (RunContainer order image input w)) →
  value (RunContainer order image input w) = (None, Some (FromDocker e))
  ∧ (∃ config hostConfig,
       In (EvContainerCreate config hostConfig (inl id))
          (calls (RunContainer order image input w)))
  ∧ (∀ id' force err,
       ¬ In (EvContainerRemove id' force err)
            (calls (RunContainer order image input w))).
Proof.
  rewrite RunContainer_paths.
  destruct (NewEnvClient w) as [[e1|] w1];
    [intros [[=]|[]]|].
  destruct (ParsePortSpecs (ExportedPort input))
    as [[exposedPorts portBindings]|perr];
    [|intros [[=]|[[=]|[]]]].
  cbv zeta.
  destruct (ImagePull image (pullOpt input) w1) as [[e2|] w2];
    [intros Hin; cbn in Hin; repeat (destruct Hin as [[=]|Hin]); destruct Hin|].
  destruct (ReadAll w2) as [[e3|] w3];
    [intros Hin; cbn in Hin; repeat (destruct Hin as [[=]|Hin]); destruct Hin|].
  destruct (ContainerCreate _ _ w3) as [[id0|e4] w4];
    [|intros Hin; cbn in Hin; repeat (destruct Hin as [[=]|Hin]); destruct Hin].
  destruct (ContainerStart id0 w4) as [[e5|] w5].
  - intros Hin. cbn in Hin.
    repeat (destruct Hin as [Heq|Hin]; [try discriminate Heq|]);
      [|destruct Hin].
    injection Heq as -> ->. split; [reflexivity|]. split.
    + eexists _, _. cbn. auto 10.
    + intros id' force err Hrm. cbn in Hrm.
      repeat (destruct Hrm as [[=]|Hrm]). destruct Hrm.
  - destruct (WaitingFor input) as [strategy|];
      [destruct (WaitUntilReady strategy _ w5) as [[oerr c] w6]|];
      intros Hin; cbn in Hin; repeat (destruct Hin as [[=]|Hin]); destruct Hin.
Qed.

(** X2. A [RunContainer] that returns a handle has made its calls in this
    order: the client, the port specs, the pull, the reading of the pull
    stream to its end, the create, the start, the wait of the strategy
    when there is one, and at last the close of the pull stream. *)
Theorem RunContainer_order_of_calls order image input w c oerr :
  value (RunContainer order image input w) = (Some c, oerr) →
  ∃ exposedPorts portBindings id,
    ParsePortSpecs (ExportedPort input) = inl (exposedPorts, portBindings) ∧
    calls (RunContainer order image input w) =
      [ EvNewEnvClient None;
        EvParsePortSpecs (ExportedPort input) None;
        EvLogPortBindings portBindings;
        EvImagePull image (pullOpt input) None;
        EvReadAll None;
        EvContainerCreate (dockerInput order image input exposedPorts)
          {| container.PortBindings := portBindings |} (inl id);
        EvContainerStart id None ]
      ++ match WaitingFor input with
         | Some _ => [EvWaitUntilReady id oerr]
         | None => []
         end
      ++ [EvClose].
Proof.
  rewrite RunContainer_paths.
  destruct (NewEnvClient w) as [[e1|] w1]; [discriminate|].
  destruct (ParsePortSpecs (ExportedPort input))
    as [[exposedPorts portBindings]|perr]; [|discriminate].
  cbv zeta.
  destruct (ImagePull image (pullOpt input) w1) as [[e2|] w2]; [discriminate|].
  destruct (ReadAll w2) as [[e3|] w3]; [discriminate|].
  destruct (ContainerCreate _ _ w3) as [[id0|e4] w4]; [|discriminate].
  destruct (ContainerStart id0 w4) as [[e5|] w5]; [discriminate|].
  destruct (WaitingFor input) as [strategy|].
  - destruct (WaitUntilReady strategy _ w5) as [[oerr' c'] w6].
    intros [= <- <-]. exists exposedPorts, portBindings, id0.
    split; reflexivity.
  - intros [= <- <-]. exists exposedPorts, portBindings, id0.
    split; reflexivity.
Qed.

(** X3. The environment of a created container is the request's map
    flattened to "name=value" strings, one for each entry of the map, in
    the order the [range] took; the image is the one asked for and the
    pull carries the registry credential of the request. *)
Theorem RunContainer_environment order image input w config hostConfig res :
  In (EvContainerCreate config hostConfig res)
     (calls (RunContainer order image input w)) →
  container.Env config ≡ₚ (λ kv : string * string, kv.1 +:+ "=" +:+ kv.2)
                  <$> map_to_list (Env input)
  ∧ container.Image config = image
  ∧ In (EvImagePull image {| types.RegistryAuth := RegistryCred input |} None)
       (calls (RunContainer order image input w)).
Proof.
  assert (pullOpt input = {| types.RegistryAuth := RegistryCred input |}) as Hopt.
  { unfold pullOpt. destruct (String.eqb_spec (RegistryCred input) "") as [->|];
      reflexivity. }
  rewrite RunContainer_paths, Hopt.
  destruct (NewEnvClient w) as [[e1|] w1]; [intros [[=]|[]]|].
  destruct (ParsePortSpecs (ExportedPort input))
    as [[exposedPorts portBindings]|perr];
    [|intros [[=]|[[=]|[]]]].
  cbv zeta.
  destruct (ImagePull image _ w1) as [[e2|] w2];
    [intros Hin; cbn in Hin; repeat (destruct Hin as [[=]|Hin]); destruct Hin|].
  destruct (ReadAll w2) as [[e3|] w3];
    [intros Hin; cbn in Hin; repeat (destruct Hin as [[=]|Hin]); destruct Hin|].
  destruct (ContainerCreate _ _ w3) as [[id0|e4] w4];
    [destruct (ContainerStart id0 w4) as [[e5|] w5];
     [|destruct (WaitingFor input) as [strategy|];
       [destruct (WaitUntilReady strategy _ w5) as [[oerr c] w6]|]]|].
  all: intros Hin; cbn in Hin;
    repeat (destruct Hin as [Heq|Hin]; [try discriminate Heq|]);
    try destruct Hin;
    injection Heq as <- _ _; cbn;
    (split; [apply fmap_Permutation, visit_perm|]);
    (split; [reflexivity|]); auto 10.
Qed.

End Lifecycle.

Lemma RunContainer_start_failure_leaves_container_witness :
  value (RunContainer listed "nginx" (Sim.request ["8080:80"] "" None)
           {| Sim.client := None; Sim.pull := None; Sim.read := None;
              Sim.create := inl "c0ffee";
              Sim.start := Some {| docker_msg := "port is already allocated" |};
              Sim.remove := None; Sim.created := None;
              Sim.inspections := []; Sim.closed := false |})
  = (None, Some (FromDocker {| docker_msg := "port is already allocated" |})).
Proof.
  apply (RunContainer_start_failure_leaves_container listed "nginx"
           (Sim.request ["8080:80"] "" None) _ "c0ffee"
           {| docker_msg := "port is already allocated" |}).
  vm_compute. auto 10.
Defined.

Lemma RunContainer_order_of_calls_witness :
  ∃ exposedPorts portBindings id,
    Sim.parse_specs ["8080:80"] = inl (exposedPorts, portBindings) ∧
    calls (RunContainer listed "nginx"
             (Sim.request ["8080:80"] "" (Some Sim.never_ready)) Sim.healthy) =
      [ EvNewEnvClient None;
        EvParsePortSpecs ["8080:80"] None;
        EvLogPortBindings portBindings;
        EvImagePull "nginx" {| types.RegistryAuth := "" |} None;
        EvReadAll None;
        EvContainerCreate
          (dockerInput listed "nginx"
             (Sim.request ["8080:80"] "" (Some Sim.never_ready)) exposedPorts)
          {| container.PortBindings := portBindings |} (inl id);
        EvContainerStart id None ]
      ++ [EvWaitUntilReady id (Some (errorString "not ready"))]
      ++ [EvClose].
Proof.
  exact (RunContainer_order_of_calls listed "nginx"
           (Sim.request ["8080:80"] "" (Some Sim.never_ready)) Sim.healthy
           Sim.fresh (Some (errorString "not ready")) eq_refl).
Defined.

Lemma RunContainer_environment_witness :
  ["FOO=bar"] ≡ₚ (λ kv : string * string, kv.1 +:+ "=" +:+ kv.2)
                   <$> map_to_list ({[ "FOO" := "bar" ]} : gmap string string).
Proof.
  refine (proj1 (RunContainer_environment reversed "nginx"
                   (Sim.request ["8080:80"] "" None) Sim.healthy
                   {| container.Image := "nginx"; container.Env := ["FOO=bar"];
                      container.ExposedPorts := {[ "80/tcp" ]}; container.Cmd := [] |}
                   {| container.PortBindings :=
                        {[ "80/tcp" := [ {| HostIP := ""; HostPort := "8080" |} ] ]} |}
                   (inl "c0ffee") _)).
  vm_compute. auto 10.
Defined.

(** [RunContainer] where a step fails: the start, and the readiness
    strategy. *)
Example RunContainer_start_fails :
  value (RunContainer listed "nginx" (Sim.request ["8080:80"] "" None)
           {| Sim.client := None; Sim.pull := None; Sim.read := None;
              Sim.create := inl "c0ffee";
              Sim.start := Some {| docker_msg := "port is already allocated" |};
              Sim.remove := None; Sim.created := None;
              Sim.inspections := []; Sim.closed := false |})
  = (None, Some (FromDocker {| docker_msg := "port is already allocated" |})).
Proof. vm_compute. reflexivity. Qed.

Example RunContainer_never_ready :
  value (RunContainer listed "nginx"
           (Sim.request ["8080:80"] "" (Some Sim.never_ready)) Sim.healthy)
  = (Some Sim.fresh, Some (errorString "not ready")).
Proof. vm_compute. reflexivity. Qed.

Section PortSpecs.
Context {W : Type} `{Docker W}.

Implicit Types (w : W) (order : RangeOrder) (input : RequestContainer W).

(** C6, as the code has it.  When the port-export specifications of the
    request do not parse, [RunContainer] returns a nil handle and an
    error and makes no engine call: no image pull, no create, no start.
    The client is made before the specs are parsed, so the error is the
    parse error when the client could be made (the only calls are then
    making the client and parsing), and the error of making the client
    otherwise. *)
Theorem RunContainer_malformed_ports order image input w perr :
  ParsePortSpecs (ExportedPort input) = inr perr →
  Forall (λ ev, is_engine_call ev = false)
         (calls (RunContainer order image input w))
  ∧ match NewEnvClient w with
    | (None, w1) =>
        RunContainer order image input w =
          ((None, Some perr), w1,
           [EvNewEnvClient None;
            EvParsePortSpecs (ExportedPort input) (Some perr)])
    | (Some e, w1) =>
        RunContainer order image input w =
          ((None, Some (FromDocker e)), w1, [EvNewEnvClient (Some e)])
    end.
Proof.
  intros Hparse. rewrite RunContainer_paths, Hparse.
  destruct (NewEnvClient w) as [[e|] w1]; cbn; split;
    try reflexivity; repeat constructor.
Qed.

End PortSpecs.

Lemma RunContainer_malformed_ports_witness :
  RunContainer listed "nginx" (Sim.request ["http"] "" None) Sim.healthy =
    ((None, Some (errorString "Invalid containerPort: http")),
     Sim.healthy,
     [EvNewEnvClient None;
      EvParsePortSpecs ["http"]
        (Some (errorString "Invalid containerPort: http"))]).
Proof.
  exact (proj2 (RunContainer_malformed_ports listed "nginx"
                  (Sim.request ["http"] "" None) Sim.healthy
                  (errorString "Invalid containerPort: http")
                  eq_refl)).
Defined.

(** C6 as the spec states it fails: where no client can be made, a
    request with a malformed port specification gets the error of the
    client, not a parse error; the port specs are not even looked at. *)
Lemma RunContainer_malformed_ports_no_client :
  ParsePortSpecs (ExportedPort (Sim.request ["http"] "" None)) =
    inr (errorString "Invalid containerPort: http")
  ∧ RunContainer listed "nginx" (Sim.request ["http"] "" None) Sim.no_client =
      ((None, Some (FromDocker Sim.unreachable)), Sim.no_client,
       [EvNewEnvClient (Some Sim.unreachable)]).
Proof. split; vm_compute; reflexivity. Qed.

(** *** Port keys and their numbers *)

Section PortKeys.

Lemma Split_without_sep s sep :
  ¬ In sep (list_ascii_of_string s) → GoLib.Split s sep = [s].
Proof.
  induction s as [|ch s IH]; intros Hno; [reflexivity|].
  cbn [GoLib.Split]. cbn in Hno.
  destruct (Ascii.eqb_spec ch sep) as [->|Hne]; [tauto|].
  rewrite IH by tauto. reflexivity.
Qed.

Lemma Split_at_first_sep s sep rest :
  ¬ In sep (list_ascii_of_string s) →
  GoLib.Split (s +:+ String sep rest) sep = s :: GoLib.Split rest sep.
Proof.
  induction s as [|ch s IH]; intros Hno.
  - change ("" +:+ String sep rest) with (String sep rest).
    cbn [GoLib.Split]. rewrite Ascii.eqb_refl. reflexivity.
  - cbn in Hno.
    change (String ch s +:+ String sep rest)
      with (String ch (s +:+ String sep rest)).
    cbn [GoLib.Split].
    destruct (Ascii.eqb_spec ch sep) as [->|Hne]; [tauto|].
    rewrite IH by tauto. reflexivity.
Qed.

(** The number of a key is read from what stands before the first
    slash: the protocol after it plays no part. *)
Lemma Port_Int_ignores_protocol number proto :
  ¬ In "/"%char (list_ascii_of_string number) →
  GoLib.Port_Int (number +:+ String "/" proto) = GoLib.Port_Int number.
Proof.
  intros Hno. unfold GoLib.Port_Int, GoLib.SplitProtoPort.
  rewrite (Split_at_first_sep number "/" proto Hno).
  rewrite (Split_without_sep number "/" Hno).
  destruct number as [|ch number]; [reflexivity|].
  change (String ch number +:+ String "/" proto)
    with (String ch (number +:+ String "/" proto)).
  cbn [String.eqb orb].
  destruct (GoLib.Split proto "/") as [|p1 ps] eqn:Hsplit.
  - exfalso. revert Hsplit. clear.
    destruct proto as [|ch proto]; cbn; [discriminate|].
    destruct (Ascii.eqb ch "/"); [discriminate|].
    destruct (GoLib.Split proto "/"); discriminate.
  - destruct (String.eqb p1 ""); reflexivity.
Qed.

End PortKeys.

Section MappedPort.
Context {W : Type} `{Docker W}.

Implicit Types (c : Container) (w : W) (port : Z) (order : RangeOrder).
Implicit Types (snapshot : ContainerJSON) (input : RequestContainer W).

(** A handle comes back without an error only after a successful
    create and start; with no strategy its cache slot is empty. *)
Lemma RunContainer_handle_no_strategy order image input w c w' evs
    exposedPorts portBindings :
  WaitingFor input = None →
  ParsePortSpecs (ExportedPort input) = inl (exposedPorts, portBindings) →
  RunContainer order image input w = ((Some c, None), w', evs) →
  raw c = None ∧
  In (EvContainerCreate (dockerInput order image input exposedPorts)
        {| container.PortBindings := portBindings |} (inl (ID c))) evs.
Proof.
  intros Hwait Hparse. rewrite RunContainer_paths, Hparse, Hwait.
  destruct (NewEnvClient w) as [[e|] w1]; [discriminate|]. cbv zeta.
  destruct (ImagePull image (pullOpt input) w1) as [[e|] w2]; [discriminate|].
  destruct (ReadAll w2) as [[e|] w3]; [discriminate|].
  destruct (ContainerCreate _ _ w3) as [[id0|e] w4]; [|discriminate].
  destruct (ContainerStart id0 w4) as [[e|] w5]; [discriminate|].
  intros [= <- <- <-]. split; [reflexivity|]. cbn. auto 10.
Qed.

(** C2, as the code has it.  (1) When the port-binding map of the
    snapshot has a key whose number is the container port asked for, and
    no such key has an empty list of bindings, [GetMappedPort] returns
    what [strconv.Atoi] makes of the host port of the first binding of
    such a key: the host port as an integer and no error when it is a
    decimal integer.  (2) Only the number of the key counts:
    the protocol after the slash plays no part in the comparison.
    (3) After a [RunContainer] with [ExportedPort = ["8080:80"]] and no
    readiness strategy that returned a handle and no error, the creation
    was asked to bind 80/tcp to host port 8080, and on an engine that
    reports that binding [GetMappedPort(ctx, 80)] returns 8080. *)
Theorem GetMappedPort_present :
  (∀ order c w snapshot c' w' evs port,
     inspectContainer c w = (((Some snapshot, None), c'), w', evs) →
     (∃ key, is_Some (types.Ports (NetworkSettings snapshot) !! key) ∧
             GoLib.Port_Int key = port) →
     (∀ key,
        GoLib.Port_Int key = port →
        types.Ports (NetworkSettings snapshot) !! key ≠ Some []) →
     ∃ key val0 rest,
       types.Ports (NetworkSettings snapshot) !! key = Some (val0 :: rest) ∧
       GoLib.Port_Int key = port ∧
       GetMappedPort order c port w =
         ((Returned (Atoi (HostPort val0)), c'), w',
          evs ++ [EvLogPort port (HostPort val0)]) ∧
       ∀ hostPort,
         GoLib.Atoi_raw (HostPort val0) = (hostPort, None) →
         GetMappedPort order c port w =
           ((Returned (hostPort, None), c'), w',
            evs ++ [EvLogPort port (HostPort val0)]))
  ∧ (∀ number proto,
       ¬ In "/"%char (list_ascii_of_string number) →
       GoLib.Port_Int (number +:+ String "/" proto) = GoLib.Port_Int number)
  ∧ (∀ order image input w c w1 evs exposedPorts,
       ExportedPort input = ["8080:80"] →
       WaitingFor input = None →
       ParsePortSpecs ["8080:80"] =
         inl (exposedPorts,
              {[ "80/tcp" := [ {| HostIP := ""; HostPort := "8080" |} ] ]}) →
       RunContainer order image input w = ((Some c, None), w1, evs) →
       In (EvContainerCreate (dockerInput order image input exposedPorts)
             {| container.PortBindings :=
                  {[ "80/tcp" := [ {| HostIP := ""; HostPort := "8080" |} ] ]} |}
             (inl (ID c))) evs
       ∧ ∀ order' w2 snapshot c2 w3 evs2 val0 rest,
           inspectContainer c w2 = (((Some snapshot, None), c2), w3, evs2) →
           types.Ports (NetworkSettings snapshot) = {[ "80/tcp" := val0 :: rest ]} →
           HostPort val0 = "8080" →
           GetMappedPort order' c 80 w2 =
             ((Returned (8080, None), c2), w3, evs2 ++ [EvLogPort 80 "8080"])).
Proof.
  split; [|split].
  - intros order c w snapshot c' w' evs port Hinspect [key [[val Hval] Hint]] Hgood.
    rewrite (GetMappedPort_inspected _ _ _ _ _ _ _ _ Hinspect).
    destruct (find (matches port) _) as [[key' val']|] eqn:Hfind.
    + apply find_visit_Some in Hfind as [Hlook Hint'].
      destruct val' as [|val0 rest]; [destruct (Hgood key' Hint' Hlook)|].
      exists key', val0, rest. repeat split; try done.
      intros hostPort Hatoi. unfold Atoi. rewrite Hatoi. reflexivity.
    + exfalso. exact (proj1 (find_visit_None order _ port) Hfind key val Hval Hint).
  - exact Port_Int_ignores_protocol.
  - intros order image input w c w1 evs exposedPorts Hports Hwait Hparse Hrun.
    rewrite <- Hports in Hparse.
    destruct (RunContainer_handle_no_strategy _ _ _ _ _ _ _ _ _ Hwait Hparse Hrun)
      as [_ Hcreate].
    split; [exact Hcreate|].
    intros order' w2 snapshot c2 w3 evs2 val0 rest Hinspect Hbindings Hhost.
    rewrite (GetMappedPort_inspected _ _ _ _ _ _ _ _ Hinspect).
    rewrite (find_visit_unique order' _ 80 "80/tcp" (val0 :: rest)).
    + rewrite Hhost. reflexivity.
    + rewrite Hbindings. apply lookup_singleton_eq.
    + reflexivity.
    + intros key' [val Hval] _. rewrite Hbindings in Hval.
      apply lookup_singleton_Some in Hval as [<- _]. reflexivity.
Qed.

End MappedPort.

Lemma GetMappedPort_present_witness :
  (∃ key val0 rest,
     Sim.two_protocols !! key = Some (val0 :: rest) ∧
     GoLib.Port_Int key = 80 ∧
     value (GetMappedPort listed Sim.fresh 80
              (Sim.answering [inl (Sim.snapshot Sim.two_protocols)])) =
       (Returned (Atoi (HostPort val0)),
        Sim.holding (Sim.snapshot Sim.two_protocols)))
  ∧ GoLib.Port_Int ("80" +:+ String "/" "udp") = GoLib.Port_Int "80"
  ∧ value (RunContainer listed "nginx" (Sim.request ["8080:80"] "" None)
             Sim.healthy) = (Some Sim.fresh, None)
  ∧ (value (GetMappedPort reversed Sim.fresh 80
              (world_after (RunContainer listed "nginx"
                              (Sim.request ["8080:80"] "" None) Sim.healthy)))).1
    = Returned (8080, None).
Proof.
  split; [|split; [|split]].
  - destruct (proj1 GetMappedPort_present listed Sim.fresh
                (Sim.answering [inl (Sim.snapshot Sim.two_protocols)])
                (Sim.snapshot Sim.two_protocols)
                (Sim.holding (Sim.snapshot Sim.two_protocols))
                (Sim.answering [])
                [EvNewEnvClient None;
                 EvContainerInspect "c0ffee"
                   (inl (Sim.snapshot Sim.two_protocols))]
                80)
      as (key & val0 & rest & Hlook & Hint & Hcall & _).
    + reflexivity.
    + exists "80/tcp". split; [|reflexivity]. eexists. vm_compute. reflexivity.
    + intros key Hint Hlook. cbn in Hlook. unfold Sim.two_protocols in Hlook.
      apply lookup_insert_Some in Hlook as [[_ [=]]|[_ Hlook]].
      apply lookup_singleton_Some in Hlook as [_ [=]].
    + exists key, val0, rest. rewrite Hcall. auto.
  - apply (proj1 (proj2 GetMappedPort_present)). vm_compute.
    intros [[=]|[[=]|[]]].
  - vm_compute. reflexivity.
  - set (r := RunContainer listed "nginx" (Sim.request ["8080:80"] "" None)
                Sim.healthy).
    destruct (proj2 (proj2 GetMappedPort_present) listed "nginx"
                (Sim.request ["8080:80"] "" None) Sim.healthy Sim.fresh
                (world_after r) (calls r) {[ "80/tcp" ]}
                eq_refl eq_refl) as [_ Hport].
    + vm_compute. reflexivity.
    + vm_compute. reflexivity.
    + erewrite (Hport reversed (world_after r)).
      * reflexivity.
      * vm_compute. reflexivity.
      * vm_compute. reflexivity.
      * reflexivity.
Defined.

(** C2 as the spec states it fails.  The container port is a key of the
    map in both snapshots.  A port that the image exposes and the request
    did not publish has an empty list of bindings, and the call panics; a
    binding whose host port is not a number gives the error of
    [strconv.Atoi]. *)
Lemma GetMappedPort_present_no_host_port :
  (Sim.unpublished !! "80/tcp" = Some []
   ∧ GoLib.Port_Int "80/tcp" = 80
   ∧ value (GetMappedPort listed
              (Sim.holding (Sim.snapshot Sim.unpublished)) 80 Sim.healthy) =
     (Panicked (IndexOutOfRange 0 0),
      Sim.holding (Sim.snapshot Sim.unpublished)))
  ∧ value (GetMappedPort listed
             (Sim.holding
                (Sim.snapshot
                   {[ "80/tcp" := [ {| HostIP := ""; HostPort := "" |} ] ]}))
             80 Sim.healthy) =
    (Returned (0, Some (NumError "Atoi" "" GoLib.ErrSyntax)),
     Sim.holding
       (Sim.snapshot {[ "80/tcp" := [ {| HostIP := ""; HostPort := "" |} ] ]})).
Proof. repeat split; vm_compute; reflexivity. Qed.

Section RunningAlone.
Context {W : Type} `{Docker W}.

(** A goroutine that runs alone from the start to the end of its call
    does what [inspectContainer] does. *)
Lemma run_alone i later threads s :
  threads !! i = Some AtCheck →
  run ([i; i; i; i] ++ later) threads s =
    let '(((osnap, oerr), c'), w', evs) :=
      inspectContainer (handle s) (world s) in
    run later (<[i := Finished (osnap, oerr)]> threads)
        {| handle := c'; world := w'; trace := trace s ++ evs |}.
Proof.
  intros Hi. pose proof (lookup_lt_Some _ _ _ Hi) as Hlt.
  destruct s as [c w tr]. cbn [handle world trace].
  cbn [app run]. rewrite Hi. cbn [thread_step handle].
  destruct (raw c) as [snapshot|] eqn:Hraw.
  - rewrite (inspectContainer_cached c w snapshot Hraw).
    rewrite !list_lookup_insert_eq by (rewrite ?length_insert; lia).
    cbn [thread_step].
    rewrite !list_lookup_insert_eq by (rewrite ?length_insert; lia).
    cbn [thread_step].
    rewrite !list_lookup_insert_eq by (rewrite ?length_insert; lia).
    cbn [thread_step].
    rewrite !list_insert_insert_eq, app_nil_r. reflexivity.
  - rewrite (inspectContainer_fresh c w Hraw).
    rewrite !list_lookup_insert_eq by (rewrite ?length_insert; lia).
    cbn [thread_step world handle trace].
    destruct (NewEnvClient w) as [[e|] w1].
    + rewrite !list_lookup_insert_eq by (rewrite ?length_insert; lia).
      cbn [thread_step].
      rewrite !list_lookup_insert_eq by (rewrite ?length_insert; lia).
      cbn [thread_step].
      rewrite !list_insert_insert_eq. reflexivity.
    + rewrite !list_lookup_insert_eq by (rewrite ?length_insert; lia).
      cbn [thread_step world handle trace].
      destruct (ContainerInspect (ID c) w1) as [[snapshot|e] w2].
      * rewrite !list_lookup_insert_eq by (rewrite ?length_insert; lia).
        cbn [thread_step world handle trace].
        rewrite !list_insert_insert_eq, <- app_assoc. reflexivity.
      * rewrite !list_lookup_insert_eq by (rewrite ?length_insert; lia).
        cbn [thread_step].
        rewrite !list_insert_insert_eq, <- app_assoc. reflexivity.
Qed.

End RunningAlone.

Section NoOverlap.
Context {W : Type} `{Docker W}.

Lemma inspected_app evs1 evs2 :
  inspected (evs1 ++ evs2) = inspected evs1 ++ inspected evs2.
Proof. apply omap_app. Qed.

Lemma between_calls_step i threads s :
  threads !! i = Some AtCheck →
  between_calls threads s →
  let '(((osnap, oerr), c'), w', evs) :=
    inspectContainer (handle s) (world s) in
  between_calls (<[i := Finished (osnap, oerr)]> threads)
                {| handle := c'; world := w'; trace := trace s ++ evs |}.
Proof.
  intros Hi [Hseen Hret]. pose proof (lookup_lt_Some _ _ _ Hi) as Hlt.
  destruct (raw (handle s)) as [snapshot|] eqn:Hraw.
  - rewrite (inspectContainer_cached _ (world s) snapshot Hraw).
    split; cbn [handle trace].
    + rewrite app_nil_r, Hraw. exact Hseen.
    + intros j snap oerr Hj. rewrite Hraw.
      destruct (decide (i = j)) as [<-|Hne].
      * rewrite list_lookup_insert_eq in Hj by lia. congruence.
      * rewrite list_lookup_insert_ne in Hj by done.
        exact (Hret j snap oerr Hj).
  - assert (∀ j snap oerr,
              threads !! j = Some (Finished (Some snap, oerr)) → False)
      as Hnone.
    { intros j snap oerr Hj. specialize (Hret j snap oerr Hj).
      discriminate. }
    rewrite (inspectContainer_fresh _ (world s) Hraw).
    destruct (NewEnvClient (world s)) as [[e|] w1].
    + split; cbn [handle trace].
      * rewrite inspected_app, Hseen, Hraw. reflexivity.
      * intros j snap oerr Hj.
        destruct (decide (i = j)) as [<-|Hne].
        -- rewrite list_lookup_insert_eq in Hj by lia. discriminate.
        -- rewrite list_lookup_insert_ne in Hj by done.
           destruct (Hnone j snap oerr Hj).
    + destruct (ContainerInspect (ID (handle s)) w1) as [[snapshot|e] w2].
      * split; cbn [handle trace raw].
        -- rewrite inspected_app, Hseen. reflexivity.
        -- intros j snap oerr Hj.
           destruct (decide (i = j)) as [<-|Hne].
           ++ rewrite list_lookup_insert_eq in Hj by lia. congruence.
           ++ rewrite list_lookup_insert_ne in Hj by done.
              destruct (Hnone j snap oerr Hj).
      * split; cbn [handle trace].
        -- rewrite inspected_app, Hseen, Hraw. reflexivity.
        -- intros j snap oerr Hj.
           destruct (decide (i = j)) as [<-|Hne].
           ++ rewrite list_lookup_insert_eq in Hj by lia. discriminate.
           ++ rewrite list_lookup_insert_ne in Hj by done.
              destruct (Hnone j snap oerr Hj).
Qed.

(** Calls that run one after another: each returns, the others are
    left alone, and [between_calls] holds again at the end. *)
Lemma run_one_after_another turns :
  ∀ threads s,
    NoDup turns →
    (∀ i, i ∈ turns → threads !! i = Some AtCheck) →
    between_calls threads s →
    between_calls (run (one_after_another turns) threads s).1
                  (run (one_after_another turns) threads s).2
    ∧ (∀ i, i ∈ turns →
            ∃ result, (run (one_after_another turns) threads s).1 !! i
                      = Some (Finished result))
    ∧ (∀ i, i ∉ turns →
            (run (one_after_another turns) threads s).1 !! i = threads !! i).
Proof.
  induction turns as [|i rest IH]; intros threads s Hnodup Hstart Hinv.
  - cbn. split; [exact Hinv|]. split; [|done].
    intros i Hi. inversion Hi.
  - apply NoDup_cons in Hnodup as [Hfresh Hnodup].
    assert (threads !! i = Some AtCheck) as Hi by (apply Hstart; left).
    pose proof (lookup_lt_Some _ _ _ Hi) as Hlt.
    change (one_after_another (i :: rest))
      with ([i; i; i; i] ++ one_after_another rest).
    rewrite (run_alone i _ threads s Hi).
    pose proof (between_calls_step i threads s Hi Hinv) as Hinv'.
    destruct (inspectContainer (handle s) (world s))
      as [[[[osnap oerr] c'] w'] evs].
    destruct (IH _ _ Hnodup
                (λ j Hj, eq_trans
                   (list_lookup_insert_ne threads i j _
                      (λ Heq, Hfresh (eq_ind_r (λ k, k ∈ rest) Hj Heq)))
                   (Hstart j (list_elem_of_further _ _ _ Hj)))
                Hinv')
      as (Hend & Hdone & Hframe).
    split; [exact Hend|]. split.
    + intros j Hj. apply elem_of_cons in Hj as [->|Hj]; [|exact (Hdone j Hj)].
      rewrite (Hframe i Hfresh), list_lookup_insert_eq by lia. eauto.
    + intros j Hj. apply not_elem_of_cons in Hj as [Hne Hj].
      rewrite (Hframe j Hj). apply list_lookup_insert_ne. congruence.
Qed.


End NoOverlap.



(* ===================================================================== *)
(** ** The three accessors *)
(* ===================================================================== *)

Section Accessors.
Context {W : Type} `{Docker W}.

Implicit Types (c : Container) (w : W) (port : Z) (order : RangeOrder).
Implicit Types (snapshot : ContainerJSON) (a : Accessor).

(** What one call of [inspectContainer] does to the handle and asks of
    the world. *)
Lemma inspectContainer_footprint c w :
  ID (value (inspectContainer c w)).2 = ID c
  ∧ Forall (λ ev, accessor_event (ID c) ev = true)
           (calls (inspectContainer c w))
  ∧ (inspections_asked (calls (inspectContainer c w)) ≤ 1)%nat
  ∧ (∀ snapshot, raw c = Some snapshot →
                 (value (inspectContainer c w)).2 = c)
  ∧ (raw c = None →
     inspected (calls (inspectContainer c w)) =
       match raw (value (inspectContainer c w)).2 with
       | Some snapshot => [snapshot]
       | None => []
       end).
Proof.
  destruct (raw c) as [s|] eqn:Hraw.
  - rewrite (inspectContainer_cached c w s Hraw). cbn.
    split; [reflexivity|]. split; [constructor|]. split; [lia|].
    split; [reflexivity|discriminate].
  - rewrite (inspectContainer_fresh c w Hraw).
    destruct (NewEnvClient w) as [[e|] w1].
    + cbn. rewrite Hraw.
      split; [reflexivity|]. split; [repeat constructor|]. split; [lia|].
      split; [discriminate|reflexivity].
    + destruct (ContainerInspect (ID c) w1) as [[s|e] w2]; cbn;
        rewrite ?Hraw;
        (split; [reflexivity|]);
        (split; [repeat (constructor;
                         [cbn; rewrite ?String.eqb_refl; reflexivity|]);
                 constructor|]);
        (split; [lia|]); (split; [discriminate|reflexivity]).
Qed.

(** An accessor is [inspectContainer] followed by a reading of the
    snapshot: the handle and the world are those [inspectContainer]
    leaves, and the only call it adds is the log line of
    [GetMappedPort]. *)
Lemma accessor_call_inspects a c w :
  (value (accessor_call a c w)).2 = (value (inspectContainer c w)).2
  ∧ world_after (accessor_call a c w) = world_after (inspectContainer c w)
  ∧ ∃ logs,
      calls (accessor_call a c w) = calls (inspectContainer c w) ++ logs
      ∧ Forall (λ ev, ∃ port hostPort, ev = EvLogPort port hostPort) logs.
Proof.
  destruct a as [| |order port]; unfold accessor_call, bind;
    [unfold GetIPAddress|unfold LivenessCheckPorts|unfold GetMappedPort];
    unfold bind;
    destruct (inspectContainer c w) as [[[[osnap oerr] c'] w'] evs].
  - destruct osnap as [s|], oerr as [e|]; cbn;
      (repeat split; [exists []; rewrite !app_nil_r; split; [reflexivity|constructor]]).
  - destruct osnap as [s|], oerr as [e|]; cbn;
      (repeat split; [exists []; rewrite !app_nil_r; split; [reflexivity|constructor]]).
  - destruct osnap as [s|], oerr as [e|]; cbn;
      try (repeat split; [exists []; rewrite !app_nil_r; split; [reflexivity|constructor]]).
    rewrite GetMappedPort_range_find.
    destruct (find _ _) as [[key [|val0 rest]]|]; cbn;
      repeat split;
      try (exists []; rewrite !app_nil_r; split; [reflexivity|constructor]).
    exists [EvLogPort port (HostPort val0)]. rewrite !app_nil_r.
    split; [reflexivity|]. repeat constructor. eauto.
Qed.

(** The identifier and the calls of one accessor call. *)
Lemma accessor_call_id_events a c w :
  ID (value (accessor_call a c w)).2 = ID c
  ∧ Forall (λ ev, accessor_event (ID c) ev = true)
           (calls (accessor_call a c w)).
Proof.
  destruct (accessor_call_inspects a c w) as (Hc & _ & logs & Hcalls & Hlogs).
  destruct (inspectContainer_footprint c w) as (Hid & Hev & _).
  rewrite Hc, Hcalls. split; [exact Hid|].
  apply Forall_app. split; [exact Hev|].
  eapply Forall_impl; [exact Hlogs|].
  intros ev (port & hostPort & ->). reflexivity.
Qed.

(** X4. None of the three accessors changes the identifier of the
    handle, and none asks anything of the engine but, at most once, the
    inspection of the container of that identifier: an accessor creates,
    starts, pulls and removes nothing. *)
Theorem accessor_call_read_only a c w :
  ID (value (accessor_call a c w)).2 = ID c
  ∧ Forall (λ ev, accessor_event (ID c) ev = true)
           (calls (accessor_call a c w))
  ∧ (inspections_asked (calls (accessor_call a c w)) ≤ 1)%nat.
Proof.
  destruct (accessor_call_id_events a c w) as (Hid & Hev).
  split; [exact Hid|]. split; [exact Hev|].
  destruct (accessor_call_inspects a c w) as (_ & _ & logs & Hcalls & Hlogs).
  destruct (inspectContainer_footprint c w) as (_ & _ & Hone & _).
  rewrite Hcalls.
  - unfold inspections_asked in *. rewrite List.filter_app, length_app.
    assert (List.filter (λ ev, match ev with
                               | EvContainerInspect _ _ => true
                               | _ => false
                               end) logs = []) as ->; [|cbn; lia].
    clear -Hlogs. induction Hlogs as [|ev logs (port & hostPort & ->) _ IH];
      [reflexivity|exact IH].
Qed.

(** X5. The cache slot of a handle is written at most once, and only
    with what the engine answered: an accessor call leaves a filled slot
    as it is, and a slot that it fills holds the snapshot that the engine
    answered, in this call, to the inspection of this container. *)
Theorem accessor_call_cache_written_once a c w :
  (∀ snapshot, raw c = Some snapshot → (value (accessor_call a c w)).2 = c)
  ∧ (∀ snapshot,
       raw c = None →
       raw (value (accessor_call a c w)).2 = Some snapshot →
       In (EvContainerInspect (ID c) (inl snapshot))
          (calls (accessor_call a c w)))
  ∧ (raw (value (accessor_call a c w)).2 = None → raw c = None).
Proof.
  destruct (accessor_call_inspects a c w) as (Hc & _ & logs & Hcalls & _).
  rewrite Hc, Hcalls. split; [|split].
  - intros s Hraw. rewrite (inspectContainer_cached c w s Hraw). reflexivity.
  - intros s Hraw. rewrite (inspectContainer_fresh c w Hraw).
    destruct (NewEnvClient w) as [[e|] w1]; cbn; [congruence|].
    destruct (ContainerInspect (ID c) w1) as [[s'|e] w2]; cbn; [|congruence].
    intros [= ->]. auto.
  - destruct (raw c) as [s|] eqn:Hraw; [|reflexivity].
    rewrite (inspectContainer_cached c w s Hraw). cbn. congruence.
Qed.

End Accessors.

Section AccessorAnswers.
Context {W : Type} `{Docker W}.

Implicit Types (c : Container) (w : W) (port : Z) (order : RangeOrder).
Implicit Types (snapshot : ContainerJSON) (a : Accessor).

(** X6. [GetIPAddress] answers in one of two ways.  With no error, the
    address is the one of the snapshot that the handle holds after the
    call.  With an error, the address is the empty string, the error is
    the one the inspection failed with, unchanged, and the handle is as
    before, its cache slot empty. *)
Theorem GetIPAddress_answers c w address oerr c' :
  value (GetIPAddress c w) = ((address, oerr), c') →
  match oerr with
  | None =>
      ∃ snapshot,
        raw c' = Some snapshot ∧
        address = types.IPAddress (NetworkSettings snapshot)
  | Some err =>
      address = "" ∧ c' = c ∧ raw c = None ∧
      (value (inspectContainer c w)).1 = (None, Some err)
  end.
Proof.
  unfold GetIPAddress, bind.
  destruct (inspectContainer c w) as [[[[osnap oerr'] c1] w1] evs] eqn:Hinspect.
  destruct oerr' as [err|].
  - destruct (inspectContainer_error _ _ _ _ _ _ _ Hinspect)
      as (Hraw & -> & -> & _).
    cbn. intros [= <- <- <-]. auto.
  - destruct osnap as [s|].
    + destruct (inspectContainer_Some _ _ _ _ _ _ _ Hinspect) as (_ & Hraw & _).
      cbn. intros [= <- <- <-]. eauto.
    + exfalso. destruct (inspectContainer_cases c w) as [(s & c2 & Hv)|(e & Hv)];
        rewrite Hinspect in Hv; discriminate Hv.
Qed.

(** X7. [LivenessCheckPorts] answers in one of two ways.  With no error,
    the set is the set of exposed ports of the configuration in the
    snapshot that the handle holds after the call.  With an error, the set
    is nil, the error is the one the inspection failed with, unchanged,
    and the handle is as before, its cache slot empty. *)
Theorem LivenessCheckPorts_answers c w ports oerr c' :
  value (LivenessCheckPorts c w) = ((ports, oerr), c') →
  match oerr with
  | None =>
      ∃ snapshot,
        raw c' = Some snapshot ∧
        ports = Some (container.ExposedPorts (Config snapshot))
  | Some err =>
      ports = None ∧ c' = c ∧ raw c = None ∧
      (value (inspectContainer c w)).1 = (None, Some err)
  end.
Proof.
  unfold LivenessCheckPorts, bind.
  destruct (inspectContainer c w) as [[[[osnap oerr'] c1] w1] evs] eqn:Hinspect.
  destruct oerr' as [err|].
  - destruct (inspectContainer_error _ _ _ _ _ _ _ Hinspect)
      as (Hraw & -> & -> & _).
    cbn. intros [= <- <- <-]. auto.
  - destruct osnap as [s|].
    + destruct (inspectContainer_Some _ _ _ _ _ _ _ Hinspect) as (_ & Hraw & _).
      cbn. intros [= <- <- <-]. eauto.
    + exfalso. destruct (inspectContainer_cases c w) as [(s & c2 & Hv)|(e & Hv)];
        rewrite Hinspect in Hv; discriminate Hv.
Qed.

(** On a handle that holds a snapshot an accessor reads its answer in
    the snapshot and asks nothing of the engine. *)
Lemma accessor_call_cached a c w snapshot :
  raw c = Some snapshot →
  value (accessor_call a c w) = (answer_from snapshot a, c)
  ∧ world_after (accessor_call a c w) = w
  ∧ Forall (λ ev, is_engine_call ev = false) (calls (accessor_call a c w)).
Proof.
  intros Hraw.
  pose proof (inspectContainer_cached c w snapshot Hraw) as Hcached.
  destruct a as [| |order port]; unfold accessor_call, bind.
  - unfold GetIPAddress, bind. rewrite Hcached. cbn. repeat split. constructor.
  - unfold LivenessCheckPorts, bind. rewrite Hcached. cbn.
    repeat split. constructor.
  - rewrite (GetMappedPort_inspected _ _ _ _ _ _ _ _ Hcached). cbn.
    destruct (find _ _) as [[key [|val0 rest]]|]; cbn;
      repeat split; repeat constructor.
Qed.

Lemma no_engine_call_not_inspected evs :
  Forall (λ ev, is_engine_call ev = false) evs → inspected evs = [].
Proof.
  induction 1 as [|ev evs Hev _ IH]; [reflexivity|].
  cbn. destruct ev as [| | | | | | | | | |id [s|e]| |]; try exact IH;
    discriminate Hev.
Qed.

Lemma accessor_calls_cons a later c w :
  accessor_calls (a :: later) c w =
    let '((answer, c1), w1, evs1) := accessor_call a c w in
    if is_panic answer then (([answer], c1), w1, evs1)
    else let '((answers, c2), w2, evs2) := accessor_calls later c1 w1 in
         ((answer :: answers, c2), w2, evs1 ++ evs2).
Proof.
  cbn [accessor_calls]. unfold bind at 1.
  destruct (accessor_call a c w) as [[[answer c1] w1] evs1]. cbn [fst snd].
  destruct (is_panic answer).
  - unfold ret. rewrite app_nil_r. reflexivity.
  - unfold bind, ret.
    destruct (accessor_calls later c1 w1) as [[[answers c2] w2] evs2].
    cbn. rewrite app_nil_r. reflexivity.
Qed.

(** A sequence of calls on a handle that holds a snapshot leaves the
    handle alone and has no inspection answered. *)
Lemma accessor_calls_cached_quiet todo c w snapshot :
  raw c = Some snapshot →
  (value (accessor_calls todo c w)).2 = c
  ∧ inspected (calls (accessor_calls todo c w)) = [].
Proof.
  intros Hraw. revert w. induction todo as [|a later IH]; intros w.
  - cbn. auto.
  - rewrite accessor_calls_cons.
    destruct (accessor_call_cached a c w snapshot Hraw) as (Hv & _ & Hev).
    destruct (accessor_call a c w) as [[[answer c1] w1] evs1].
    cbn [value calls fst snd] in Hv, Hev. injection Hv as -> ->.
    apply no_engine_call_not_inspected in Hev.
    destruct (is_panic (answer_from snapshot a));
      [cbn [value calls fst snd]; auto|].
    destruct (IH w1) as (Hc' & Hseen').
    destruct (accessor_calls later c w1) as [[[answers c2] w2] evs2].
    cbn [value calls fst snd] in Hc', Hseen' |- *.
    rewrite inspected_app, Hev, Hseen'. auto.
Qed.


(** X9. In any sequence of accessor calls on a handle whose cache slot
    is empty, the engine answers at most one inspection with a snapshot:
    the successful inspections of the whole sequence are the snapshot the
    handle holds at the end, or none.  The identifier stays the same and
    every engine call of the sequence is an inspection of that
    container. *)
Theorem accessor_calls_inspect_once todo c w :
  ID (value (accessor_calls todo c w)).2 = ID c
  ∧ Forall (λ ev, accessor_event (ID c) ev = true)
           (calls (accessor_calls todo c w))
  ∧ (raw c = None →
     inspected (calls (accessor_calls todo c w)) =
       match raw (value (accessor_calls todo c w)).2 with
       | Some snapshot => [snapshot]
       | None => []
       end).
Proof.
  revert c w. induction todo as [|a later IH]; intros c w.
  - cbn. split; [reflexivity|]. split; [constructor|]. intros ->. reflexivity.
  - rewrite accessor_calls_cons.
    destruct (accessor_call_id_events a c w) as (Hid & Hev).
    destruct (accessor_call_inspects a c w) as (Hc & _ & logs & Hcalls & Hlogs).
    destruct (inspectContainer_footprint c w) as (_ & _ & _ & _ & Hseen).
    assert (inspected logs = []) as Hnolog.
    { clear -Hlogs. induction Hlogs as [|ev logs (p & h & ->) _ IHl];
        [reflexivity|exact IHl]. }
    destruct (accessor_call a c w) as [[[answer c1] w1] evs1].
    cbn [value calls fst snd] in Hid, Hev, Hc, Hcalls.
    assert (raw c = None →
            inspected evs1 = match raw c1 with
                             | Some snapshot => [snapshot]
                             | None => []
                             end) as Hfirst.
    { intros Hraw. rewrite Hcalls, inspected_app, Hnolog, app_nil_r, Hc.
      exact (Hseen Hraw). }
    destruct (is_panic answer).
    + cbn. split; [exact Hid|]. split; [exact Hev|exact Hfirst].
    + specialize (IH c1 w1). destruct IH as (Hid' & Hev' & Hseen').
      pose proof (λ s Hs, accessor_calls_cached_quiet later c1 w1 s Hs)
        as Hcache.
      destruct (accessor_calls later c1 w1) as [[[answers c2] w2] evs2].
      cbn [value calls world_after fst snd] in Hid', Hev', Hseen', Hcache |- *.
      split; [congruence|]. split.
      * apply Forall_app. split; [exact Hev|]. rewrite <- Hid. exact Hev'.
      * intros Hraw. rewrite inspected_app, (Hfirst Hraw).
        destruct (raw c1) as [s|] eqn:Hraw1.
        -- destruct (Hcache s eq_refl) as (-> & ->).
           rewrite Hraw1. reflexivity.
        -- exact (Hseen' eq_refl).
Qed.

End AccessorAnswers.

(* ===================================================================== *)
(** ** What [GetMappedPort] can answer *)
(* ===================================================================== *)

Section MappedPortAnswers.
Context {W : Type} `{Docker W}.

Implicit Types (c : Container) (w : W) (port : Z) (order : RangeOrder).
Implicit Types (snapshot : ContainerJSON).

(** The three ways a [GetMappedPort] that got a snapshot ends, with the
    entry of the map that decides. *)
Lemma GetMappedPort_decided order c port w out c' :
  value (GetMappedPort order c port w) = (out, c') →
  (∃ e, out = Returned (0, Some (FromDocker e)) ∧ c' = c ∧ raw c = None
        ∧ (value (inspectContainer c w)).1 = (None, Some (FromDocker e)))
  ∨ ∃ snapshot,
      raw c' = Some snapshot ∧
      ((out = Returned (0, Some (port_not_found port)) ∧
        ∀ key val, types.Ports (NetworkSettings snapshot) !! key = Some val →
                   GoLib.Port_Int key ≠ port)
       ∨ (∃ key, out = Panicked (IndexOutOfRange 0 0) ∧
                 types.Ports (NetworkSettings snapshot) !! key = Some [] ∧
                 GoLib.Port_Int key = port)
       ∨ (∃ key val0 rest,
            out = Returned (Atoi (HostPort val0)) ∧
            types.Ports (NetworkSettings snapshot) !! key = Some (val0 :: rest) ∧
            GoLib.Port_Int key = port)).
Proof.
  destruct (inspectContainer c w) as [[[[osnap oerr] c1] w1] evs] eqn:Hinspect.
  destruct oerr as [err|].
  - destruct (inspectContainer_error _ _ _ _ _ _ _ Hinspect)
      as (Hraw & -> & -> & e & ->).
    rewrite (GetMappedPort_inspect_failed _ _ _ _ _ _ _ _ _ Hinspect).
    intros [= <- <-]. left. exists e. auto.
  - destruct osnap as [s|].
    2:{ exfalso.
        destruct (inspectContainer_cases c w) as [(s & c2 & Hv)|(e & Hv)];
          rewrite Hinspect in Hv; discriminate Hv. }
    destruct (inspectContainer_Some _ _ _ _ _ _ _ Hinspect) as (_ & Hraw & _).
    rewrite (GetMappedPort_inspected _ _ _ _ _ _ _ _ Hinspect).
    destruct (find (matches port) _) as [[key val]|] eqn:Hfind.
    + apply find_visit_Some in Hfind as [Hlook Hint].
      destruct val as [|val0 rest]; intros [= <- <-]; right; exists s;
        (split; [exact Hraw|]); right; [left|right]; eauto 6.
    + intros [= <- <-]. right. exists s. split; [exact Hraw|]. left.
      split; [reflexivity|].
      exact (proj1 (find_visit_None order _ port) Hfind).
Qed.




Lemma digits_val_bounds s : ∀ acc n,
  0 ≤ acc → GoLib.digits_val acc s = Some n → 0 ≤ n.
Proof.
  induction s as [|ch s IH]; intros acc n Hacc; cbn.
  - intros [= <-]. exact Hacc.
  - destruct (GoLib.is_digit ch) eqn:Hdigit; [|discriminate].
    apply IH. unfold GoLib.is_digit in Hdigit. unfold GoLib.digit_val. lia.
Qed.

(** The number of a key is a port number, whatever the key. *)
Lemma Port_Int_range key : 0 ≤ GoLib.Port_Int key ≤ 65535.
Proof.
  unfold GoLib.Port_Int, GoLib.ParsePort.
  destruct (snd (GoLib.SplitProtoPort key)) as [|ch s]; [lia|].
  destruct (GoLib.digits_val 0 (String ch s)) as [n|] eqn:Hdigits; [|lia].
  pose proof (digits_val_bounds _ _ _ (Z.le_refl 0) Hdigits).
  destruct (n <=? 65535) eqn:Hle; lia.
Qed.


End MappedPortAnswers.

(* ===================================================================== *)
(** ** From [RunContainer] to the handle and to [Terminate] *)
(* ===================================================================== *)

Section RunThenUse.
Context {W : Type} `{Docker W}.

Implicit Types (c : Container) (w : W) (order : RangeOrder).
Implicit Types (input : RequestContainer W).

(** X14. [RunContainer] returns a handle exactly when the start of the
    container succeeded, and it never returns a nil handle with a nil
    error.  Without a readiness strategy a handle comes with no error;
    its identifier is the one the engine gave at the create, and its
    cache slot is empty: [RunContainer] does not inspect. *)
Theorem RunContainer_handle_iff_started order image input w :
  value (RunContainer order image input w) ≠ (None, None)
  ∧ ((∃ c oerr, value (RunContainer order image input w) = (Some c, oerr))
     ↔ ∃ id, In (EvContainerStart id None)
                (calls (RunContainer order image input w)))
  ∧ (∀ id res, ¬ In (EvContainerInspect id res)
                    (calls (RunContainer order image input w)))
  ∧ (WaitingFor input = None →
     ∀ c oerr,
       value (RunContainer order image input w) = (Some c, oerr) →
       oerr = None ∧ raw c = None ∧
       ∃ config hostConfig,
         In (EvContainerCreate config hostConfig (inl (ID c)))
            (calls (RunContainer order image input w))).
Proof.
  rewrite RunContainer_paths.
  destruct (NewEnvClient w) as [[e1|] w1];
    [|destruct (ParsePortSpecs (ExportedPort input))
        as [[exposedPorts portBindings]|perr];
      [cbv zeta;
       destruct (ImagePull image (pullOpt input) w1) as [[e2|] w2];
       [|destruct (ReadAll w2) as [[e3|] w3];
         [|destruct (ContainerCreate _ _ w3) as [[id0|e4] w4];
           [destruct (ContainerStart id0 w4) as [[e5|] w5];
            [|destruct (WaitingFor input) as [strategy|];
              [destruct (WaitUntilReady strategy _ w5) as [[oerr0 c0] w6]|]]|]]]|]].
  all: cbn [value calls fst snd app].
  all: split; [discriminate|].
  all: split;
    [split;
     [intros (c & oerr & Hv); try discriminate Hv; eexists; cbn; eauto 12
     |intros (id & Hin); cbn in Hin;
      repeat (destruct Hin as [Heq|Hin]; [try discriminate Heq|]);
      try destruct Hin; eauto]|].
  all: split;
    [intros id res Hin; cbn in Hin;
     repeat (destruct Hin as [[=]|Hin]); destruct Hin|].
  all: intros Hwait c oerr Hv; try discriminate Hv; try discriminate Hwait.
  injection Hv as <- <-. split; [reflexivity|]. split; [reflexivity|].
  eexists _, _. cbn. eauto 12.
Qed.

(** X15. The pull stream is closed once, as the last call, on every path
    of [RunContainer] on which the image pull succeeded, whether the run
    then fails or not; when the pull was not made or failed there is no
    stream and nothing is closed. *)
Theorem RunContainer_closes_pull_stream order image input w :
  (∀ img options,
     In (EvImagePull img options None)
        (calls (RunContainer order image input w)) →
     ∃ before,
       calls (RunContainer order image input w) = before ++ [EvClose]
       ∧ ¬ In EvClose before)
  ∧ ((∀ img options,
        ¬ In (EvImagePull img options None)
             (calls (RunContainer order image input w))) →
     ¬ In EvClose (calls (RunContainer order image input w))).
Proof.
  rewrite RunContainer_paths.
  destruct (NewEnvClient w) as [[e1|] w1];
    [|destruct (ParsePortSpecs (ExportedPort input))
        as [[exposedPorts portBindings]|perr];
      [cbv zeta;
       destruct (ImagePull image (pullOpt input) w1) as [[e2|] w2];
       [|destruct (ReadAll w2) as [[e3|] w3];
         [|destruct (ContainerCreate _ _ w3) as [[id0|e4] w4];
           [destruct (ContainerStart id0 w4) as [[e5|] w5];
            [|destruct (WaitingFor input) as [strategy|];
              [destruct (WaitUntilReady strategy _ w5) as [[oerr0 c0] w6]|]]|]]]|]].
  all: cbn [value calls fst snd app].
  all: split;
    [intros img options Hin; cbn in Hin;
     try (repeat (destruct Hin as [Heq|Hin]; [discriminate Heq|]);
          destruct Hin; fail)
    |intros Hnone Hin; cbn in Hin;
     try (repeat (destruct Hin as [Heq|Hin]; [discriminate Heq|]);
          destruct Hin; fail);
     exfalso; eapply Hnone; cbn; eauto 12].
  all: match goal with
       | |- ∃ before, ?evs = before ++ [EvClose] ∧ _ =>
           exists (removelast evs); split; [reflexivity|];
           cbn; intros Hc;
           repeat (destruct Hc as [Heq|Hc]; [discriminate Heq|]);
           destruct Hc
       end.
Qed.

(** X16. Every container that [RunContainer] asks the engine to create
    carries the exposed ports and the port bindings that the parser made
    of the request, unchanged, and the only container it asks to start
    is the one the engine just created. *)
Theorem RunContainer_creates_what_was_parsed order image input w :
  (∀ config hostConfig res,
     In (EvContainerCreate config hostConfig res)
        (calls (RunContainer order image input w)) →
     ∃ exposedPorts portBindings,
       ParsePortSpecs (ExportedPort input) = inl (exposedPorts, portBindings)
       ∧ container.ExposedPorts config = exposedPorts
       ∧ container.PortBindings hostConfig = portBindings)
  ∧ (∀ id oerr,
       In (EvContainerStart id oerr)
          (calls (RunContainer order image input w)) →
       ∃ config hostConfig,
         In (EvContainerCreate config hostConfig (inl id))
            (calls (RunContainer order image input w))).
Proof.
  rewrite RunContainer_paths.
  destruct (NewEnvClient w) as [[e1|] w1];
    [|destruct (ParsePortSpecs (ExportedPort input))
        as [[exposedPorts portBindings]|perr];
      [cbv zeta;
       destruct (ImagePull image (pullOpt input) w1) as [[e2|] w2];
       [|destruct (ReadAll w2) as [[e3|] w3];
         [|destruct (ContainerCreate _ _ w3) as [[id0|e4] w4];
           [destruct (ContainerStart id0 w4) as [[e5|] w5];
            [|destruct (WaitingFor input) as [strategy|];
              [destruct (WaitUntilReady strategy _ w5) as [[oerr0 c0] w6]|]]|]]]|]].
  all: cbn [value calls fst snd app].
  all: split;
    [intros config hostConfig res Hin; cbn in Hin;
     repeat (destruct Hin as [Heq|Hin]; [try discriminate Heq|]);
     try destruct Hin;
     injection Heq as <- <- _; eauto
    |intros id oerr Hin; cbn in Hin;
     repeat (destruct Hin as [Heq|Hin]; [try discriminate Heq|]);
     try destruct Hin;
     injection Heq as <- _; eexists _, _; cbn; eauto 12].
Qed.

(** X17. [Terminate] on the handle that [RunContainer] returned, with or
    without an error of the readiness strategy, asks the engine to remove
    the container that was created and started, by force, and returns
    what the engine answers; it asks nothing else.  When no client can be
    made it marks the test as failed and returns that error without
    asking the engine.  (The strategy is one that leaves the identifier
    of the handle alone.) *)
Theorem RunContainer_then_Terminate order image input w c oerr :
  value (RunContainer order image input w) = (Some c, oerr) →
  (∀ strategy c0 w0,
     WaitingFor input = Some strategy →
     ID (WaitUntilReady strategy c0 w0).1.2 = ID c0) →
  In (EvContainerStart (ID c) None) (calls (RunContainer order image input w))
  ∧ ∀ w2,
      match NewEnvClient w2 with
      | (None, w3) =>
          Terminate c w2 =
            (FromDocker <$> (ContainerRemove (ID c) true w3).1,
             (ContainerRemove (ID c) true w3).2,
             [EvNewEnvClient None;
              EvContainerRemove (ID c) true
                (ContainerRemove (ID c) true w3).1])
      | (Some e, w3) =>
          Terminate c w2 =
            (Some (FromDocker e), w3,
             [EvNewEnvClient (Some e); EvTestError (FromDocker e)])
      end.
Proof.
  intros Hv Hkeeps. split.
  - revert Hv. rewrite RunContainer_paths.
    destruct (NewEnvClient w) as [[e1|] w1]; [discriminate|].
    destruct (ParsePortSpecs (ExportedPort input))
      as [[exposedPorts portBindings]|perr]; [|discriminate].
    cbv zeta.
    destruct (ImagePull image (pullOpt input) w1) as [[e2|] w2]; [discriminate|].
    destruct (ReadAll w2) as [[e3|] w3]; [discriminate|].
    destruct (ContainerCreate _ _ w3) as [[id0|e4] w4]; [|discriminate].
    destruct (ContainerStart id0 w4) as [[e5|] w5]; [discriminate|].
    destruct (WaitingFor input) as [strategy|] eqn:Hwait.
    + pose proof (Hkeeps strategy {| ID := id0; raw := None |} w5 eq_refl)
        as Hid.
      destruct (WaitUntilReady strategy _ w5) as [[oerr0 c0] w6].
      cbn in Hid. intros [= <- <-]. rewrite Hid. cbn. auto 12.
    + intros [= <- <-]. cbn. auto 12.
  - intros w2. unfold Terminate, bind, call, emit, ret.
    destruct (NewEnvClient w2) as [[e|] w3]; [reflexivity|].
    destruct (ContainerRemove (ID c) true w3) as [r w4]. reflexivity.
Qed.

(** X18. After a [RunContainer] without a readiness strategy, the first
    accessor call is what inspects: [LivenessCheckPorts] makes a client,
    asks the engine for the container that was created, and returns the
    exposed ports that the engine reports; on an engine that reports at
    least the ports the create was asked to expose, every port the parser
    made of the request is among them. *)
Theorem RunContainer_then_LivenessCheckPorts
    order image input w c w1 evs exposedPorts portBindings
    w2 w3 w4 snapshot :
  WaitingFor input = None →
  ParsePortSpecs (ExportedPort input) = inl (exposedPorts, portBindings) →
  RunContainer order image input w = ((Some c, None), w1, evs) →
  NewEnvClient w2 = (None, w3) →
  ContainerInspect (ID c) w3 = (inl snapshot, w4) →
  (∀ config hostConfig,
     In (EvContainerCreate config hostConfig (inl (ID c))) evs →
     container.ExposedPorts config ⊆ container.ExposedPorts (Config snapshot)) →
  LivenessCheckPorts c w2 =
    (((Some (container.ExposedPorts (Config snapshot)), None),
      {| ID := ID c; raw := Some snapshot |}),
     w4, [EvNewEnvClient None; EvContainerInspect (ID c) (inl snapshot)])
  ∧ exposedPorts ⊆ container.ExposedPorts (Config snapshot).
Proof.
  intros Hwait Hparse Hrun Hclient Hinspect Hreports.
  destruct (RunContainer_handle_no_strategy _ _ _ _ _ _ _ _ _ Hwait Hparse Hrun)
    as [Hraw Hcreate].
  split; [|exact (Hreports _ _ Hcreate)].
  unfold LivenessCheckPorts, bind.
  rewrite (inspectContainer_fresh c w2 Hraw), Hclient, Hinspect. reflexivity.
Qed.

End RunThenUse.

(* ===================================================================== *)
(** ** Overlapping accessor calls, in any schedule *)
(* ===================================================================== *)

Section AnySchedule.
Context {W : Type} `{Docker W}.

Lemma inspections_asked_app evs1 evs2 :
  inspections_asked (evs1 ++ evs2) =
  (inspections_asked evs1 + inspections_asked evs2)%nat.
Proof. unfold inspections_asked. rewrite List.filter_app. apply length_app. Qed.

Lemma filter_insert_count (f : Thread → bool) threads i t t' :
  threads !! i = Some t →
  (length (List.filter f (<[i := t']> threads)) + (if f t then 1 else 0)
   = length (List.filter f threads) + (if f t' then 1 else 0))%nat.
Proof.
  revert i. induction threads as [|t0 threads IH]; intros [|i] Hi;
    try discriminate Hi.
  - injection Hi as ->.
    change (<[0%nat := t']> (t :: threads)) with (t' :: threads).
    cbn [List.filter]. destruct (f t), (f t'); cbn [length]; lia.
  - change ((t0 :: threads) !! S i) with (threads !! i) in Hi.
    change (<[S i := t']> (t0 :: threads)) with (t0 :: <[i := t']> threads).
    specialize (IH i Hi). cbn [List.filter].
    destruct (f t0); cbn [length]; lia.
Qed.

(** A step of one goroutine keeps [answered_only]. *)
Lemma thread_step_answered_only id n threads s i t :
  threads !! i = Some t →
  answered_only id n threads s →
  answered_only id n (<[i := (thread_step t s).1]> threads) (thread_step t s).2.
Proof.
  intros Hi (Hheld & Hcache & Hid & Hcount).
  pose proof (lookup_lt_Some _ _ _ Hi) as Hlt.
  assert (∀ t' (s' : Shared W),
            (∀ snapshot, snapshot_held t' = Some snapshot →
                         In snapshot (inspected (trace s'))) →
            (∀ snapshot, In snapshot (inspected (trace s)) →
                         In snapshot (inspected (trace s'))) →
            (∀ snapshot, raw (handle s') = Some snapshot →
                         In snapshot (inspected (trace s'))) →
            ID (handle s') = id →
            (inspections_asked (trace s') + (if before_inspect t' then 1 else 0)
             ≤ inspections_asked (trace s) + (if before_inspect t then 1 else 0))%nat →
            answered_only id n (<[i := t']> threads) s') as Hkeep.
  { intros t' s' Hnew Hmono Hcache' Hid' Hasked.
    split; [|split; [exact Hcache'|split; [exact Hid'|]]].
    - intros j t0 snapshot Hj Hsnap.
      destruct (decide (i = j)) as [<-|Hne].
      + rewrite list_lookup_insert_eq in Hj by lia. injection Hj as <-.
        exact (Hnew snapshot Hsnap).
      + rewrite list_lookup_insert_ne in Hj by done.
        exact (Hmono snapshot (Hheld j t0 snapshot Hj Hsnap)).
    - pose proof (filter_insert_count before_inspect threads i t t' Hi). lia. }
  destruct s as [c w tr]. cbn [handle world trace] in *.
  destruct t as [| | |snapshot|result]; cbn [thread_step handle world trace].
  - destruct (raw c) as [snapshot|] eqn:Hraw; cbn [fst snd]; apply Hkeep;
      cbn [handle trace snapshot_held before_inspect]; rewrite ?Hraw;
      auto; try lia; try discriminate.
  - destruct (NewEnvClient w) as [[e|] w']; cbn [fst snd]; apply Hkeep;
      cbn [handle trace snapshot_held before_inspect];
      rewrite ?inspected_app, ?inspections_asked_app; cbn;
      rewrite ?app_nil_r; auto; try lia; try discriminate.
  - destruct (ContainerInspect (ID c) w) as [[snapshot|e] w']; cbn [fst snd];
      apply Hkeep; cbn [handle trace snapshot_held before_inspect];
      rewrite ?inspected_app, ?inspections_asked_app; cbn;
      rewrite ?app_nil_r; auto; try lia; try discriminate.
    + intros s' [= <-]. apply in_or_app. right. left. reflexivity.
    + intros s' Hin. apply in_or_app. left. exact Hin.
    + intros s' Hs'. apply in_or_app. left. exact (Hcache s' Hs').
  - cbn [fst snd]. apply Hkeep;
      cbn [handle trace snapshot_held before_inspect raw ID]; auto.
    + intros s' [= <-]. exact (Hheld i _ snapshot Hi eq_refl).
    + intros s' [= <-]. exact (Hheld i _ snapshot Hi eq_refl).
  - cbn [fst snd]. apply Hkeep;
      cbn [handle trace snapshot_held before_inspect]; auto.
    intros s' Hs'. exact (Hheld i _ s' Hi Hs').
Qed.

Lemma run_answered_only id n schedule :
  ∀ threads s,
    answered_only id n threads s →
    answered_only id n (run schedule threads s).1 (run schedule threads s).2.
Proof.
  induction schedule as [|i later IH]; intros threads s Hinv; [exact Hinv|].
  cbn [run]. destruct (threads !! i) as [t|] eqn:Hi; [|exact (IH _ _ Hinv)].
  pose proof (thread_step_answered_only id n threads s i t Hi Hinv) as Hstep.
  destruct (thread_step t s) as [t' s']. exact (IH _ _ Hstep).
Qed.


End AnySchedule.

(* ===================================================================== *)
(** ** The properties above on the scripted engine *)
(* ===================================================================== *)

Lemma GetIPAddress_answers_witness :
  ∃ snapshot,
    raw (Sim.holding (Sim.snapshot Sim.one_protocol)) = Some snapshot ∧
    "172.17.0.2" = types.IPAddress (NetworkSettings snapshot).
Proof.
  apply (GetIPAddress_answers Sim.fresh
           (Sim.answering [inl (Sim.snapshot Sim.one_protocol)])
           "172.17.0.2" None (Sim.holding (Sim.snapshot Sim.one_protocol))).
  vm_compute. reflexivity.
Defined.

Lemma LivenessCheckPorts_answers_witness :
  (None : option (gset string)) = None ∧ Sim.fresh = Sim.fresh ∧
  raw Sim.fresh = None ∧
  (value (inspectContainer Sim.fresh Sim.no_client)).1 =
    (None, Some (FromDocker Sim.unreachable)).
Proof.
  apply (LivenessCheckPorts_answers Sim.fresh Sim.no_client None
           (Some (FromDocker Sim.unreachable)) Sim.fresh).
  vm_compute. reflexivity.
Defined.






Lemma RunContainer_then_Terminate_witness :
  Terminate Sim.fresh Sim.healthy =
    (None, Sim.healthy,
     [EvNewEnvClient None; EvContainerRemove "c0ffee" true None]).
Proof.
  refine (proj2 (RunContainer_then_Terminate listed "nginx"
                   (Sim.request ["8080:80"] "" (Some Sim.never_ready))
                   Sim.healthy Sim.fresh (Some (errorString "not ready"))
                   _ _) Sim.healthy).
  - vm_compute. reflexivity.
  - intros strategy c0 w0 [= <-]. reflexivity.
Defined.

Lemma RunContainer_then_LivenessCheckPorts_witness :
  ({[ "80/tcp" ]} : gset string) ⊆
    container.ExposedPorts
      (dockerInput listed "nginx" (Sim.request ["8080:80"] "" None)
         {[ "80/tcp" ]}).
Proof.
  refine (proj2 (RunContainer_then_LivenessCheckPorts listed "nginx"
                   (Sim.request ["8080:80"] "" None) Sim.healthy Sim.fresh
                   (world_after (RunContainer listed "nginx"
                                   (Sim.request ["8080:80"] "" None) Sim.healthy))
                   (calls (RunContainer listed "nginx"
                             (Sim.request ["8080:80"] "" None) Sim.healthy))
                   {[ "80/tcp" ]}
                   {[ "80/tcp" := [ {| HostIP := ""; HostPort := "8080" |} ] ]}
                   (world_after (RunContainer listed "nginx"
                                   (Sim.request ["8080:80"] "" None) Sim.healthy))
                   (world_after (RunContainer listed "nginx"
                                   (Sim.request ["8080:80"] "" None) Sim.healthy))
                   (world_after (RunContainer listed "nginx"
                                   (Sim.request ["8080:80"] "" None) Sim.healthy))
                   {| Config := dockerInput listed "nginx"
                                  (Sim.request ["8080:80"] "" None) {[ "80/tcp" ]};
                      NetworkSettings :=
                        {| types.IPAddress := "172.17.0.2";
                           types.Ports :=
                             {[ "80/tcp" :=
                                  [ {| HostIP := ""; HostPort := "8080" |} ] ]} |} |}
                   eq_refl _ _ _ _ _)).
  - vm_compute. reflexivity.
  - vm_compute. reflexivity.
  - vm_compute. reflexivity.
  - vm_compute. reflexivity.
  - intros config hostConfig Hin. vm_compute in Hin.
    repeat (destruct Hin as [Heq|Hin]; [try discriminate Heq|]);
      [|destruct Hin].
    injection Heq as <- _. vm_compute. intros p Hp. exact Hp.
Defined.

